(** * Dynasty Site updater: the standings fetcher and the summary generator

    A shallow embedding of [main.py].  The script reads three JSON documents
    from the Sleeper API, joins rosters to users, computes each team's score,
    sorts the table and renders it into a prompt for a text-generation
    service.

    The file has three layers:
    - [Py]: the fragment of the Python run time the script relies on
      (JSON values, exceptions, truthiness, [==] and [<], [float()],
      [str()], [format(x, '.2f')], [dict.get], [list.sort]);
    - the effects of the script (console, HTTP, text generation) as a small
      free monad [prog] with an interpreter [run];
    - the two functions of the script, [fetch_sleeper_data] and
      [generate_site_update_summary], followed by the theorems.

    Conventions.  A Python [int] is a [Z]; a Python [float] is an IEEE 754
    binary64 number, taken from the Standard Library's executable
    specification [spec_float] at precision 53 and maximal exponent 1024;
    a Python [str] is a [string] whose characters are the code points below
    256.  A JSON object is an association list in insertion order, as a
    Python [dict] keeps it. *)

From Stdlib Require Import ZArith List String Ascii Bool Lia.
From Stdlib Require Import Permutation Sorted.
From Stdlib Require Import SpecFloat DecimalString.
Import ListNotations.

#[local] Set Warnings "-register-all".
#[local] Open Scope string_scope.
#[local] Open Scope list_scope.
#[local] Open Scope Z_scope.

(* ================================================================= *)
(** * The Python fragment *)

Module Py.

(** ** Exceptions

    Only the class matters for the exceptions the interpreter raises; the
    one exception the script prints, [requests.exceptions.RequestException],
    carries its message. *)

Inductive exn : Type :=
| AttributeError
| KeyError
| TypeError
| ValueError
| OverflowError
| RequestException (msg : string).

(** A computation that returns or raises. *)
Inductive exc (A : Type) : Type :=
| Ok (a : A)
| Raise (e : exn).

Arguments Ok {A} a.
Arguments Raise {A} e.

Definition bind {A B} (m : exc A) (f : A -> exc B) : exc B :=
  match m with
  | Ok a => f a
  | Raise e => Raise e
  end.

Declare Scope exc_scope.
Delimit Scope exc_scope with exc.
Notation "x <- m ;; k" := (bind m (fun x => k))
  (at level 61, m at next level, right associativity) : exc_scope.

(** ** Values: what [json.loads] yields *)

Definition float := spec_float.

Inductive value : Type :=
| VNone
| VBool (b : bool)
| VInt (n : Z)
| VFloat (f : float)
| VStr (s : string)
| VList (items : list value)
| VDict (fields : list (string * value)).

(** [d.get(key)] on the fields of a dict, which are in insertion order with
    no key twice; [None] when the key is absent. *)
Fixpoint lookup (key : string) (fields : list (string * value)) : option value :=
  match fields with
  | [] => None
  | (k, v) :: rest => if String.eqb k key then Some v else lookup key rest
  end.

(** [obj.get(key, default)]: only a dict has the method. *)
Definition get (obj : value) (key : string) (default : value) : exc value :=
  match obj with
  | VDict fields =>
      match lookup key fields with
      | Some v => Ok v
      | None => Ok default
      end
  | _ => Raise AttributeError
  end.

(** [obj[key]] with a string key: a dict without the key raises [KeyError],
    every other value raises [TypeError] (a list or a string wants an integer
    index, the scalars are not subscriptable). *)
Definition getitem (obj : value) (key : string) : exc value :=
  match obj with
  | VDict fields =>
      match lookup key fields with
      | Some v => Ok v
      | None => Raise KeyError
      end
  | _ => Raise TypeError
  end.

(** [for x in obj]: a list yields its items, a dict its keys, a string its
    characters; the other values are not iterable. *)
Fixpoint chars (s : string) : list value :=
  match s with
  | EmptyString => []
  | String c rest => VStr (String c EmptyString) :: chars rest
  end.

Definition iter (obj : value) : exc (list value) :=
  match obj with
  | VList items => Ok items
  | VDict fields => Ok (map (fun kv => VStr (fst kv)) fields)
  | VStr s => Ok (chars s)
  | _ => Raise TypeError
  end.

(** ** Floats: IEEE 754 binary64 *)

Definition prec : Z := 53.
Definition emax : Z := 1024.

Definition fadd : float -> float -> float := SFadd prec emax.
Definition fdiv : float -> float -> float := SFdiv prec emax.
Definition feqb : float -> float -> bool := SFeqb.
Definition fltb : float -> float -> bool := SFltb.
Definition fleb : float -> float -> bool := SFleb.

(** The float nearest to [m * 2^e], ties to even. *)
Definition round_float (m e : Z) (negative_zero : bool) : float :=
  binary_normalize prec emax m e negative_zero.

Definition fzero : float := S754_zero false.
Definition fone : float := round_float 1 0 false.
Definition fhundred : float := round_float 100 0 false.

Definition is_nan (f : float) : bool :=
  match f with S754_nan => true | _ => false end.

(** [float(n)] for an [int]: the nearest float, [OverflowError] when that
    is not finite. *)
Definition float_of_int (n : Z) : exc float :=
  match round_float n 0 false with
  | S754_infinity _ => Raise OverflowError
  | f => Ok f
  end.

(** *** [float(s)] for a [str]

    CPython strips white space, checks that every underscore stands between
    two digits and drops them, then reads an optional sign followed by
    [inf], [infinity], [nan] (in any case) or a decimal numeral with an
    optional fraction and exponent.  The whole text must be consumed; the
    value is the correctly rounded float, infinite on overflow. *)

Definition code (c : ascii) : Z := Z.of_nat (nat_of_ascii c).

(** White space: the C locale's for text that is ASCII; text with a
    character above 127 is first transliterated, which turns U+0085 and
    U+00A0 into spaces. *)
Definition is_space (non_ascii : bool) (c : ascii) : bool :=
  let n := code c in
  ((9 <=? n) && (n <=? 13)) || (n =? 32)
  || (non_ascii && ((n =? 133) || (n =? 160))).

Definition is_digit (c : ascii) : bool :=
  let n := code c in (48 <=? n) && (n <=? 57).

Definition digit_value (c : ascii) : Z := code c - 48.

Definition lower (c : ascii) : ascii :=
  let n := code c in
  if (65 <=? n) && (n <=? 90) then ascii_of_nat (Z.to_nat (n + 32)) else c.

Fixpoint has_non_ascii (s : string) : bool :=
  match s with
  | EmptyString => false
  | String c rest => (128 <=? code c) || has_non_ascii rest
  end.

Fixpoint lstrip (sp : ascii -> bool) (s : list ascii) : list ascii :=
  match s with
  | c :: rest => if sp c then lstrip sp rest else s
  | [] => []
  end.

Definition strip (sp : ascii -> bool) (s : list ascii) : list ascii :=
  rev (lstrip sp (rev (lstrip sp s))).

(** Underscores: each one after a digit and before a digit.  [prev] is the
    character before [s]. *)
Fixpoint underscores_ok (prev : option ascii) (s : list ascii) : bool :=
  match s with
  | [] =>
      match prev with
      | Some "_"%char => false
      | _ => true
      end
  | c :: rest =>
      let after_digit := match prev with Some p => is_digit p | None => false end in
      let after_underscore :=
        match prev with Some "_"%char => true | _ => false end in
      (if Ascii.eqb c "_" then after_digit
       else negb after_underscore || is_digit c)
      && underscores_ok (Some c) rest
  end.

Definition drop_underscores (s : list ascii) : list ascii :=
  filter (fun c => negb (Ascii.eqb c "_")) s.

(** Reads a maximal run of digits: its value as a numeral continuing [acc],
    the number of digits, and the rest. *)
Fixpoint read_digits (acc : Z) (count : Z) (s : list ascii) : Z * Z * list ascii :=
  match s with
  | c :: rest =>
      if is_digit c then read_digits (10 * acc + digit_value c) (count + 1) rest
      else (acc, count, s)
  | [] => (acc, count, [])
  end.

(** The float nearest to [m * 10^e] for [m >= 0], with the given sign.  For
    a negative [e] the quotient is taken with more than 64 bits and a
    sticky bit, which rounds as the exact quotient does. *)
Definition decimal_to_float (negative : bool) (m e : Z) : float :=
  let sign (x : Z) := if negative then - x else x in
  if m =? 0 then S754_zero negative
  else if 0 <=? e then round_float (sign (m * 10 ^ e)) 0 negative
  else
    let d := 10 ^ (- e) in
    let k := Z.max 0 (Z.log2_up d - Z.log2 m + 66) in
    let q := (m * 2 ^ k) / d in
    let r := (m * 2 ^ k) mod d in
    round_float (sign (2 * q + (if r =? 0 then 0 else 1))) (- k - 1) negative.

Definition is_word (w : string) (s : list ascii) : bool :=
  String.eqb (string_of_list_ascii (map lower s)) w.

(** An optional sign: whether it is a minus, and the rest. *)
Definition read_sign (s : list ascii) : bool * list ascii :=
  match s with
  | "-"%char :: r => (true, r)
  | "+"%char :: r => (false, r)
  | _ => (false, s)
  end.

(** The exponent part [e[+-]digits] at the end of a numeral. *)
Definition read_exponent (s : list ascii) : option Z :=
  match s with
  | [] => Some 0
  | c :: rest =>
      if Ascii.eqb (lower c) "e" then
        let '(negative, rest) := read_sign rest in
        match read_digits 0 0 rest with
        | (x, n, []) => if 0 <? n then Some (if negative then - x else x) else None
        | _ => None
        end
      else None
  end.

(** An unsigned numeral: integer digits, optional fraction, optional
    exponent, with a digit before or after the point. *)
Definition read_numeral (negative : bool) (s : list ascii) : option float :=
  let '(int_part, n_int, rest) := read_digits 0 0 s in
  let '(mantissa, n_frac, rest) :=
    match rest with
    | "."%char :: r => read_digits int_part 0 r
    | _ => (int_part, 0, rest)
    end in
  if 0 <? n_int + n_frac then
    match read_exponent rest with
    | Some x => Some (decimal_to_float negative mantissa (x - n_frac))
    | None => None
    end
  else None.

Definition float_of_str (s : string) : exc float :=
  let non_ascii := has_non_ascii s in
  let text := strip (is_space non_ascii) (list_ascii_of_string s) in
  if negb (underscores_ok None text) then Raise ValueError
  else
    let '(negative, body) := read_sign (drop_underscores text) in
    if is_word "inf" body || is_word "infinity" body then Ok (S754_infinity negative)
    else if is_word "nan" body then Ok S754_nan
    else
      match read_numeral negative body with
      | Some f => Ok f
      | None => Raise ValueError
      end.

(** [float(x)]: numbers convert, text is parsed, everything else is a
    [TypeError]. *)
Definition to_float (x : value) : exc float :=
  match x with
  | VFloat f => Ok f
  | VInt n => float_of_int n
  | VBool b => Ok (if b then fone else fzero)
  | VStr s => float_of_str s
  | VNone | VList _ | VDict _ => Raise TypeError
  end.

(** ** Truthiness, equality and order *)

(** [bool(x)]: what [if x] tests. *)
Definition truthy (x : value) : bool :=
  match x with
  | VNone => false
  | VBool b => b
  | VInt n => negb (n =? 0)
  | VFloat f => negb (feqb f fzero)
  | VStr s => negb (String.eqb s "")
  | VList items => match items with [] => false | _ => true end
  | VDict fields => match fields with [] => false | _ => true end
  end.

(** An [int] against a [float], compared exactly as CPython does; [None]
    when the float is a NaN. *)
Definition compare_int_float (n : Z) (f : float) : option comparison :=
  match f with
  | S754_nan => None
  | S754_infinity s => Some (if s then Gt else Lt)
  | S754_zero _ => Some (n ?= 0)
  | S754_finite s m e =>
      let m := if s then Z.neg m else Z.pos m in
      Some (if 0 <=? e then n ?= m * 2 ^ e else n * 2 ^ (- e) ?= m)
  end.

(** Numbers of any two kinds: [Some c] with [c] the comparison ([None] for
    an unordered pair), or [None] when one side is not a number. *)
Definition compare_numbers (a b : value) : option (option comparison) :=
  let number (x : value) : option (Z + float) :=
    match x with
    | VBool b => Some (inl (if b then 1 else 0))
    | VInt n => Some (inl n)
    | VFloat f => Some (inr f)
    | _ => None
    end in
  match number a, number b with
  | Some (inl m), Some (inl n) => Some (Some (m ?= n))
  | Some (inr f), Some (inr g) => Some (SFcompare f g)
  | Some (inl m), Some (inr g) => Some (compare_int_float m g)
  | Some (inr f), Some (inl n) => Some (option_map CompOpp (compare_int_float n f))
  | _, _ => None
  end.

(** [a == b].  Numbers compare by value across [bool], [int] and [float];
    lists item by item; dicts by their keys and values. *)
Fixpoint eqb (a b : value) {struct a} : bool :=
  match a, b with
  | VNone, VNone => true
  | VStr s, VStr t => String.eqb s t
  | VList xs, VList ys =>
      (fix items (xs ys : list value) {struct xs} : bool :=
         match xs, ys with
         | [], [] => true
         | x :: xs', y :: ys' => eqb x y && items xs' ys'
         | _, _ => false
         end) xs ys
  | VDict fa, VDict fb =>
      Nat.eqb (List.length fa) (List.length fb)
      && (fix fields (fa : list (string * value)) {struct fa} : bool :=
            match fa with
            | [] => true
            | (k, v) :: rest =>
                match lookup k fb with
                | Some w => eqb v w
                | None => false
                end && fields rest
            end) fa
  | _, _ =>
      match compare_numbers a b with
      | Some (Some Eq) => true
      | _ => false
      end
  end.

(** [a < b].  Numbers and strings are ordered, lists lexicographically;
    every other pair raises [TypeError]. *)
Fixpoint ltb (a b : value) {struct a} : exc bool :=
  match a, b with
  | VStr s, VStr t =>
      Ok match String.compare s t with Lt => true | _ => false end
  | VList xs, VList ys =>
      (fix items (xs ys : list value) {struct xs} : exc bool :=
         match xs, ys with
         | [], [] => Ok false
         | [], _ :: _ => Ok true
         | _ :: _, [] => Ok false
         | x :: xs', y :: ys' => if eqb x y then items xs' ys' else ltb x y
         end) xs ys
  | _, _ =>
      match compare_numbers a b with
      | Some (Some Lt) => Ok true
      | Some _ => Ok false
      | None => Raise TypeError
      end
  end.

(** Lists and dicts cannot be keys of a dict. *)
Definition hashable (x : value) : bool :=
  match x with
  | VList _ | VDict _ => false
  | _ => true
  end.

(** ** A dict with computed keys

    [user_map] is keyed by whatever [user['user_id']] holds.  The entries
    are kept in insertion order; a key equal to an earlier one overwrites
    its value. *)

Definition dict : Type := list (value * value).

Fixpoint dict_find (key : value) (d : dict) : option value :=
  match d with
  | [] => None
  | (k, v) :: rest => if eqb k key then Some v else dict_find key rest
  end.

Fixpoint dict_store (key v : value) (d : dict) : dict :=
  match d with
  | [] => [(key, v)]
  | (k, w) :: rest =>
      if eqb k key then (k, v) :: rest else (k, w) :: dict_store key v rest
  end.

(** [d[key] = v] *)
Definition setitem (d : dict) (key v : value) : exc dict :=
  if hashable key then Ok (dict_store key v d) else Raise TypeError.

(** [key in d] *)
Definition contains (d : dict) (key : value) : exc bool :=
  if hashable key then
    Ok match dict_find key d with Some _ => true | None => false end
  else Raise TypeError.

(** [d[key]] *)
Definition dict_getitem (d : dict) (key : value) : exc value :=
  if hashable key then
    match dict_find key d with
    | Some v => Ok v
    | None => Raise KeyError
    end
  else Raise TypeError.

(** ** Text: [str()], [repr()] and [format(x, '.2f')] *)

Notation "a +++ b" := (String.append a b) (at level 60, right associativity).

Definition double_quote : ascii := ascii_of_nat 34.

Definition str_of_int (n : Z) : string := NilZero.string_of_int (Z.to_int n).

Definition pad2 (n : Z) : string :=
  if n <? 10 then "0" +++ str_of_int n else str_of_int n.

Fixpoint zeros (n : nat) : string :=
  match n with
  | O => ""
  | S k => "0" +++ zeros k
  end.

(** [num / den] rounded to the nearest integer, ties to even
    ([0 <= num], [0 < den]). *)
Definition round_half_even (num den : Z) : Z :=
  let q := num / den in
  match 2 * (num mod den) ?= den with
  | Lt => q
  | Gt => q + 1
  | Eq => if Z.even q then q else q + 1
  end.

(** [format(f, '.2f')]: the exact value rounded to hundredths. *)
Definition format_2f (f : float) : string :=
  match f with
  | S754_nan => "nan"
  | S754_infinity s => if s then "-inf" else "inf"
  | S754_zero s => if s then "-0.00" else "0.00"
  | S754_finite s m e =>
      let cents :=
        if 0 <=? e then Z.pos m * 2 ^ e * 100
        else round_half_even (Z.pos m * 100) (2 ^ (- e)) in
      (if s then "-" else "") +++ str_of_int (cents / 100) +++ "."
      +++ pad2 (cents mod 100)
  end.

(** *** [repr(f)]: the shortest numeral that reads back as [f]

    For [f = m * 2^e] every real strictly between the midpoints to the two
    neighbours of [f] (the midpoints too when [m] is even) rounds to [f].
    [shortest_at m e k] is the multiple [n * 10^k] in that interval nearest
    to [f], if there is one; the numeral printed is the one for the largest
    such [k]. *)

(** [b * 2^e2 / 10^k] as a fraction. *)
Definition scaled (b e2 k : Z) : Z * Z :=
  (b * 2 ^ Z.max e2 0 * 10 ^ Z.max (- k) 0, 2 ^ Z.max (- e2) 0 * 10 ^ Z.max k 0).

Definition ceil_div (a b : Z) : Z := - ((- a) / b).

Definition shortest_at (m e k : Z) : option Z :=
  let power_of_two := (m =? 2 ^ (prec - 1)) && (3 - emax - prec <? e) in
  let inclusive := Z.even m in
  let '(x, den) := scaled (4 * m) (e - 2) k in
  let lo := fst (scaled (4 * m - (if power_of_two then 1 else 2)) (e - 2) k) in
  let hi := fst (scaled (4 * m + 2) (e - 2) k) in
  let n_lo := if inclusive then ceil_div lo den else lo / den + 1 in
  let n_hi := if inclusive then hi / den else ceil_div hi den - 1 in
  if n_lo <=? n_hi then Some (Z.min n_hi (Z.max n_lo (round_half_even x den)))
  else None.

Fixpoint shortest (fuel : nat) (m e k : Z) : Z * Z :=
  match fuel with
  | O => (0, 0)
  | S fuel' =>
      match shortest_at m e k with
      | Some n => (n, k)
      | None => shortest fuel' m e (k - 1)
      end
  end.

(** The digits of [f] and the position of the decimal point after them.
    The search starts above the decimal exponent of [f]; seventeen digits
    always tell a float from its neighbours, so forty steps are enough. *)
Definition shortest_digits (m e : Z) : string * Z :=
  let start := (Z.log2 (4 * m + 2) + e - 1) * 30103 / 100000 + 1 in
  let '(n, k) := shortest 40 m e start in
  let digits := str_of_int n in
  (digits, Z.of_nat (String.length digits) + k).

Definition float_repr (f : float) : string :=
  match f with
  | S754_nan => "nan"
  | S754_infinity s => if s then "-inf" else "inf"
  | S754_zero s => if s then "-0.0" else "0.0"
  | S754_finite s m e =>
      let '(digits, point) := shortest_digits (Z.pos m) e in
      let n := String.length digits in
      let body :=
        if (point <=? -4) || (16 <? point) then
          let x := point - 1 in
          String.substring 0 1 digits
          +++ (if (1 <? n)%nat then "." +++ String.substring 1 (n - 1) digits else "")
          +++ "e" +++ (if x <? 0 then "-" else "+") +++ pad2 (Z.abs x)
        else if point <=? 0 then "0." +++ zeros (Z.to_nat (- point)) +++ digits
        else if point <? Z.of_nat n then
          String.substring 0 (Z.to_nat point) digits +++ "."
          +++ String.substring (Z.to_nat point) (n - Z.to_nat point) digits
        else digits +++ zeros (Z.to_nat point - n) +++ ".0" in
      (if s then "-" else "") +++ body
  end.

(** *** [repr(s)] for a string *)

Definition hex_digit (n : Z) : string :=
  String.substring (Z.to_nat n) 1 "0123456789abcdef".

Fixpoint contains_char (c : ascii) (s : string) : bool :=
  match s with
  | EmptyString => false
  | String d rest => Ascii.eqb c d || contains_char c rest
  end.

Definition escape (quote : ascii) (c : ascii) : string :=
  let n := code c in
  if Ascii.eqb c quote || Ascii.eqb c "\" then String "\" (String c "")
  else if n =? 9 then "\t"
  else if n =? 10 then "\n"
  else if n =? 13 then "\r"
  else if (n <? 32) || ((127 <=? n) && (n <=? 160)) || (n =? 173) then
    "\x" +++ hex_digit (n / 16) +++ hex_digit (n mod 16)
  else String c "".

Fixpoint escape_all (quote : ascii) (s : string) : string :=
  match s with
  | EmptyString => ""
  | String c rest => escape quote c +++ escape_all quote rest
  end.

Definition str_repr (s : string) : string :=
  let quote :=
    if contains_char "'" s && negb (contains_char double_quote s) then double_quote
    else "'"%char in
  String quote (escape_all quote s +++ String quote "").

(** *** [repr(x)] and [str(x)] *)

Fixpoint repr (x : value) : string :=
  match x with
  | VNone => "None"
  | VBool b => if b then "True" else "False"
  | VInt n => str_of_int n
  | VFloat f => float_repr f
  | VStr s => str_repr s
  | VList items =>
      "[" +++ (fix join (items : list value) : string :=
                match items with
                | [] => ""
                | x :: rest =>
                    match rest with
                    | [] => repr x
                    | _ => repr x +++ ", " +++ join rest
                    end
                end) items +++ "]"
  | VDict fields =>
      "{" +++ (fix join (fields : list (string * value)) : string :=
                match fields with
                | [] => ""
                | (k, v) :: rest =>
                    match rest with
                    | [] => str_repr k +++ ": " +++ repr v
                    | _ => str_repr k +++ ": " +++ repr v +++ ", " +++ join rest
                    end
                end) fields +++ "}"
  end.

(** [str(x)], which is also what [f"{x}"] inserts. *)
Definition str (x : value) : string :=
  match x with
  | VStr s => s
  | _ => repr x
  end.

(** ** [list.sort(key=..., reverse=True)]

    The key of the script is the tuple [(wins, fpts)].  Tuples compare at
    the first position where they differ; equal tuples are not less. *)

Definition tuple_ltb (a b : value * float) : exc bool :=
  if negb (eqb (fst a) (fst b)) then ltb (fst a) (fst b)
  else if negb (feqb (snd a) (snd b)) then Ok (fltb (snd a) (snd b))
  else Ok false.

(** Python promises that [sort] uses only [<] on the keys, that it is
    stable also with [reverse=True], and that a comparison that raises
    aborts it.  Any such sort returns the same list when [<] orders the keys
    totally; the model is the insertion sort that puts an item before the
    first later item whose key it is not less than. *)
Section Sort.
Context {A : Type} (key : A -> value * float).

Fixpoint insert_descending (x : A) (sorted : list A) : exc (list A) :=
  match sorted with
  | [] => Ok [x]
  | y :: rest =>
      (less <- tuple_ltb (key x) (key y) ;;
       if less then
         rest' <- insert_descending x rest ;;
         Ok (y :: rest')
       else Ok (x :: y :: rest))%exc
  end.

Fixpoint sort_reverse (items : list A) : exc (list A) :=
  match items with
  | [] => Ok []
  | x :: rest =>
      (sorted <- sort_reverse rest ;;
       insert_descending x sorted)%exc
  end.
End Sort.

End Py.

Import Py.

(* ================================================================= *)
(** * Effects: console, HTTP and the text-generation service *)

(** What [requests.get(url)], [raise_for_status()] and [json()] come to:
    a [RequestException] with its message, or the decoded body. *)
Inductive response : Type :=
| Failed (msg : string)
| Body (v : value).

(** What [model.generate_content(prompt).text] comes to: the text, or an
    [Exception] whose [str()] is [msg]. *)
Inductive reply : Type :=
| Text (t : string)
| Fault (msg : string).

(** A program: it returns, raises, prints a line, sends an HTTP request or
    calls the text-generation service, and goes on. *)
Inductive prog (A : Type) : Type :=
| Ret (a : A)
| Throw (e : exn)
| Say (line : string) (k : prog A)
| Request (url : string) (k : response -> prog A)
| Generate (prompt : string) (k : reply -> prog A).

Arguments Ret {A} a.
Arguments Throw {A} e.
Arguments Say {A} line k.
Arguments Request {A} url k.
Arguments Generate {A} prompt k.

Fixpoint pbind {A B} (p : prog A) (f : A -> prog B) : prog B :=
  match p with
  | Ret a => f a
  | Throw e => Throw e
  | Say line k => Say line (pbind k f)
  | Request url k => Request url (fun r => pbind (k r) f)
  | Generate prompt k => Generate prompt (fun r => pbind (k r) f)
  end.

Declare Scope prog_scope.
Delimit Scope prog_scope with prog.
Bind Scope prog_scope with prog.
Notation "x <- m ;; k" := (pbind m (fun x => k))
  (at level 61, m at next level, right associativity) : prog_scope.
Notation "m ;; k" := (pbind m (fun _ => k))
  (at level 61, right associativity) : prog_scope.

(** A pure computation inside a program. *)
Definition lift {A} (m : exc A) : prog A :=
  match m with
  | Ok a => Ret a
  | Raise e => Throw e
  end.

Definition print (line : string) : prog unit := Say line (Ret tt).

(** [try: p except ...: handler]; the handler says which exceptions it
    takes. *)
Fixpoint try_except {A} (p : prog A) (handler : exn -> option (prog A)) : prog A :=
  match p with
  | Ret a => Ret a
  | Throw e =>
      match handler e with
      | Some q => q
      | None => Throw e
      end
  | Say line k => Say line (try_except k handler)
  | Request url k => Request url (fun r => try_except (k r) handler)
  | Generate prompt k => Generate prompt (fun r => try_except (k r) handler)
  end.

(** The same for a pure computation. *)
Definition try_except_pure {A} (m : exc A) (handler : exn -> option (exc A)) : exc A :=
  match m with
  | Ok a => Ok a
  | Raise e =>
      match handler e with
      | Some q => q
      | None => Raise e
      end
  end.

(** The request of the script: [get], [raise_for_status], [json]. *)
Definition get_json (url : string) : prog value :=
  Request url (fun r =>
    match r with
    | Failed msg => Throw (RequestException msg)
    | Body v => Ret v
    end).

(** ** Running a program against the outside world *)

Record world : Type := {
  http : string -> response;
  genai : string -> reply
}.

Inductive event : Type :=
| Printed (line : string)
| Requested (url : string)
| Prompted (prompt : string).

Fixpoint run {A} (w : world) (p : prog A) : list event * exc A :=
  match p with
  | Ret a => ([], Ok a)
  | Throw e => ([], Raise e)
  | Say line k =>
      let '(t, r) := run w k in (Printed line :: t, r)
  | Request url k =>
      let '(t, r) := run w (k (http w url)) in (Requested url :: t, r)
  | Generate prompt k =>
      let '(t, r) := run w (k (genai w prompt)) in (Prompted prompt :: t, r)
  end.

Definition result {A} (w : world) (p : prog A) : exc A := snd (run w p).
Definition trace {A} (w : world) (p : prog A) : list event := fst (run w p).

(* ================================================================= *)
(** * The script *)

(** One row of the standings: the dict built at lines 61-68. *)
Record entry : Type := {
  owner_name : value;
  team_name : value;
  wins : value;
  losses : value;
  ties : value;
  fpts : float
}.

(** What [fetch_sleeper_data] returns when it does not return [None]. *)
Record report : Type := {
  league_name : value;
  standings : list entry
}.

Definition newline : string := String (ascii_of_nat 10) "".

(** ** [fetch_sleeper_data] *)

(** Line 38: [{user['user_id']: user['display_name'] for user in users}]. *)
Fixpoint build_user_map (users : list value) (user_map : dict) : exc dict :=
  match users with
  | [] => Ok user_map
  | user :: rest =>
      (user_id <- getitem user "user_id" ;;
       display_name <- getitem user "display_name" ;;
       user_map' <- setitem user_map user_id display_name ;;
       build_user_map rest user_map')%exc
  end.

Definition user_map_of (users : value) : exc dict :=
  (users <- iter users ;;
   build_user_map users [])%exc.

(** Lines 53-59: the score, [0.0] when a conversion raises [ValueError] or
    [TypeError]. *)
Definition fpts_of (fpts_raw fpts_decimal_raw : value) : exc float :=
  try_except_pure
    (whole <- to_float fpts_raw ;;
     hundredths <- to_float fpts_decimal_raw ;;
     Ok (fadd whole (fdiv hundredths fhundred)))%exc
    (fun e =>
       match e with
       | ValueError | TypeError => Some (Ok fzero)
       | _ => None
       end).

(** Lines 43-68: the body of the loop over the rosters; [None] when the
    roster is skipped. *)
Definition roster_entry (user_map : dict) (roster : value) : exc (option entry) :=
  (owner_id <- get roster "owner_id" VNone ;;
   if truthy owner_id then
     known <- contains user_map owner_id ;;
     if known then
       owner_name <- dict_getitem user_map owner_id ;;
       metadata <- get roster "metadata" (VDict []) ;;
       team_name <- get metadata "team_name" owner_name ;;
       settings <- get roster "settings" (VDict []) ;;
       wins <- get settings "wins" (VInt 0) ;;
       losses <- get settings "losses" (VInt 0) ;;
       ties <- get settings "ties" (VInt 0) ;;
       fpts_raw <- get settings "fpts" (VInt 0) ;;
       fpts_decimal_raw <- get settings "fpts_decimal" (VInt 0) ;;
       fpts <- fpts_of fpts_raw fpts_decimal_raw ;;
       Ok (Some {| owner_name := owner_name;
                   team_name := team_name;
                   wins := wins;
                   losses := losses;
                   ties := ties;
                   fpts := fpts |})
     else Ok None
   else Ok None)%exc.

(** Lines 41-68: the loop, appending to [league_standings]. *)
Fixpoint collect (user_map : dict) (rosters : list value)
    (league_standings : list entry) : exc (list entry) :=
  match rosters with
  | [] => Ok league_standings
  | roster :: rest =>
      (row <- roster_entry user_map roster ;;
       collect user_map rest
         match row with
         | Some e => league_standings ++ [e]
         | None => league_standings
         end)%exc
  end.

(** Line 71: the key of the sort. *)
Definition sort_key (x : entry) : value * float := (wins x, fpts x).

(** Lines 37-73: everything after the three requests. *)
Definition build_standings (rosters users : value) : exc (list entry) :=
  (user_map <- user_map_of users ;;
   rosters <- iter rosters ;;
   league_standings <- collect user_map rosters [] ;;
   sort_reverse sort_key league_standings)%exc.

(** Lines 20-22: the three addresses. *)
Definition rosters_url (league_id : string) : string :=
  "https://api.sleeper.app/v1/league/" +++ league_id +++ "/rosters".
Definition users_url (league_id : string) : string :=
  "https://api.sleeper.app/v1/league/" +++ league_id +++ "/users".
Definition league_details_url (league_id : string) : string :=
  "https://api.sleeper.app/v1/league/" +++ league_id.

Definition fetch_sleeper_data (league_id : string) : prog (option report) :=
  (print ("Fetching data for league ID: " +++ league_id) ;;
   try_except
     (league_details <- get_json (league_details_url league_id) ;;
      league_name <- lift (get league_details "name" (VStr "Your Dynasty League")) ;;
      rosters <- get_json (rosters_url league_id) ;;
      users <- get_json (users_url league_id) ;;
      league_standings <- lift (build_standings rosters users) ;;
      Ret (Some {| league_name := league_name; standings := league_standings |}))
     (fun e =>
        match e with
        | RequestException msg =>
            Some (print ("Error fetching Sleeper data: " +++ msg) ;; Ret None)
        | _ => None
        end))%prog.

(** ** [generate_site_update_summary] *)

(** Line 97: the line of one team. *)
Definition team_line (team : entry) : string :=
  "- " +++ str (team_name team) +++ " (" +++ str (owner_name team) +++ "): "
  +++ str (wins team) +++ "-" +++ str (losses team)
  +++ " (" +++ str (ties team) +++ " ties), "
  +++ format_2f (fpts team) +++ " Fpts" +++ newline.

(** Lines 95-98: the loop appending one line per team. *)
Fixpoint append_teams (teams : list entry) (prompt_parts : list string) : list string :=
  match teams with
  | [] => prompt_parts
  | team :: rest => append_teams rest (prompt_parts ++ [team_line team])
  end.

(** Lines 87-105. *)
Definition build_prompt (league_name season : value) (league_standings : list entry) : string :=
  let prompt_parts :=
    [ "You are an AI assistant for a fantasy football dynasty league website. ";
      "Your task is to generate a concise, engaging summary of the current league standings based on the provided data. ";
      "Highlight top performers, interesting facts, or key takeaways that would be useful for a website update. ";
      "The data is for the " +++ str league_name +++ " league for the " +++ str season +++ " season. ";
      "Here are the current standings:" +++ newline +++ newline ] in
  let prompt_parts := append_teams league_standings prompt_parts in
  let prompt_parts :=
    prompt_parts ++
    [ newline +++ "Generate the summary in a friendly, engaging tone, suitable for a fan-focused website. "
      +++ "Keep it under 200 words." ] in
  String.concat "" prompt_parts.

Definition could_not_fetch : string :=
  "Could not fetch league data to generate a summary.".

Definition generate_site_update_summary (league_data_obj : option report)
    (season : value) : prog string :=
  match league_data_obj with
  | None => Ret could_not_fetch
  | Some data =>
      match standings data with
      | [] => Ret could_not_fetch
      | _ :: _ =>
          let league_name := league_name data in
          let league_standings := standings data in
          let prompt := build_prompt league_name season league_standings in
          (print (newline +++ "--- Sending to GenAI ---") ;;
           Generate prompt (fun r =>
             match r with
             | Text t => Ret t
             | Fault msg => Ret ("Error generating content with GenAI: " +++ msg)
             end))%prog
      end
  end.

(** The configuration of the script (lines 6-7). *)
Definition LEAGUE_ID : string := "1194798912048705536".
Definition SEASON : value := VStr "2025".

(** ** The main block (lines 114-127) *)

(** Line 121: the line of one team in the table printed on the console. *)
Definition table_line (team : entry) : string :=
  str (team_name team) +++ " (" +++ str (owner_name team) +++ "): "
  +++ str (wins team) +++ "-" +++ str (losses team)
  +++ " (" +++ str (ties team) +++ " ties), "
  +++ format_2f (fpts team) +++ " Fpts".

(** Lines 120-121: the loop printing the table. *)
Fixpoint print_table (teams : list entry) : prog unit :=
  match teams with
  | [] => Ret tt
  | team :: rest => (print (table_line team) ;; print_table rest)%prog
  end.

Definition aborting : string :=
  "Failed to fetch Sleeper data or no standings found. Aborting GenAI summary generation.".

Definition main : prog unit :=
  (print "Starting Dynasty Site Updater..." ;;
   league_data <- fetch_sleeper_data LEAGUE_ID ;;
   match league_data with
   | None => print aborting
   | Some data =>
       match standings data with
       | [] => print aborting
       | _ :: _ =>
           print (newline +++ "--- Fetched League Standings ---") ;;
           print_table (standings data) ;;
           genai_summary <- generate_site_update_summary league_data SEASON ;;
           print (newline +++ "--- GenAI Generated Site Update Summary ---") ;;
           print genai_summary
       end
   end)%prog.

(** ** The module as a script (lines 8-15, then the main block)

    [GOOGLE_API_KEY] is what [os.getenv] returned: [None] when the variable
    is not set.  [genai.configure] and the construction of the model have
    no effect that the script observes. *)
Definition script (GOOGLE_API_KEY : option string) : prog unit :=
  match GOOGLE_API_KEY with
  | None => Throw ValueError
  | Some key => if String.eqb key "" then Throw ValueError else main
  end.

(** The closed form of the prompt: the preamble with the league and the
    season, the lines of the teams, the closing instruction. *)
Definition preamble (league_name season : value) : string :=
  "You are an AI assistant for a fantasy football dynasty league website. "
  +++ "Your task is to generate a concise, engaging summary of the current league standings based on the provided data. "
  +++ "Highlight top performers, interesting facts, or key takeaways that would be useful for a website update. "
  +++ "The data is for the " +++ str league_name +++ " league for the "
  +++ str season +++ " season. "
  +++ "Here are the current standings:" +++ newline +++ newline.

Definition closing : string :=
  newline
  +++ "Generate the summary in a friendly, engaging tone, suitable for a fan-focused website. Keep it under 200 words.".

(** ** What the theorems speak of *)

(** What the handler of line 75 makes of an exception. *)
Definition handled (e : exn) : exc (option report) :=
  match e with
  | RequestException _ => Ok None
  | _ => Raise e
  end.

(** The entries among the rows of the loop. *)
Definition kept (rows : list (option entry)) : list entry :=
  flat_map (fun row => match row with Some e => [e] | None => [] end) rows.

(** What a successful fetch read: the index of the users and the rosters
    it looped over. *)
Definition fetched (w : world) (league_id : string) (user_map : dict)
    (rosters : list value) : Prop :=
  exists rosters_body users_body,
    http w (rosters_url league_id) = Body rosters_body
    /\ http w (users_url league_id) = Body users_body
    /\ user_map_of users_body = Ok user_map
    /\ iter rosters_body = Ok rosters.

(** [e] is the entry the loop of a fetch made from [roster], with
    [user_map] the index built from the users. *)
Definition made_from (w : world) (league_id : string) (user_map : dict)
    (roster : value) (e : entry) : Prop :=
  exists rosters,
    fetched w league_id user_map rosters
    /\ In roster rosters
    /\ roster_entry user_map roster = Ok (Some e).

(** The fields of a roster that the loop body reads. *)
Definition owner_id_of (roster : value) : option value :=
  match roster with
  | VDict fields => lookup "owner_id" fields
  | _ => None
  end.

Definition metadata_team_name (roster : value) : option value :=
  match roster with
  | VDict fields =>
      match lookup "metadata" fields with
      | Some (VDict metadata) => lookup "team_name" metadata
      | _ => None
      end
  | _ => None
  end.

Definition setting (roster : value) (key : string) : option value :=
  match roster with
  | VDict fields =>
      match lookup "settings" fields with
      | Some (VDict settings) => lookup key settings
      | _ => None
      end
  | _ => None
  end.

(** The default of [settings.get(key, 0)]. *)
Definition or_zero (present : option value) : value :=
  match present with
  | Some v => v
  | None => VInt 0
  end.

(** The roster passes the test of line 44: its [owner_id] is not empty and
    is a key of [user_map]. *)
Definition known_owner (user_map : dict) (roster : value) : bool :=
  match owner_id_of roster with
  | Some owner_id =>
      truthy owner_id && hashable owner_id
      && match dict_find owner_id user_map with
         | Some _ => true
         | None => false
         end
  | None => false
  end.

(** [float(v)] raises one of the two exceptions that line 58 catches. *)
Definition rejected (v : value) : Prop :=
  to_float v = Raise ValueError \/ to_float v = Raise TypeError.

(** [0.0 <= f]: a zero of either sign, a positive number or [inf]. *)
Definition nonneg (f : float) : Prop := fleb fzero f = true.

(** An entry as the data model has it: [wins] an integer, [fpts] a number. *)
Definition ranked (e : entry) : Prop :=
  (exists n, wins e = VInt n) /\ is_nan (fpts e) = false.

(** [a] may stand before [b]: more wins, or as many and at least the score. *)
Definition precedes (a b : entry) : Prop :=
  exists m n,
    wins a = VInt m /\ wins b = VInt n
    /\ (n < m \/ (n = m /\ fleb (fpts b) (fpts a) = true)).

(** [e] has the key of [k]: [(wins, fpts)] equal as Python compares them. *)
Definition same_key (k e : entry) : bool :=
  eqb (wins k) (wins e) && feqb (fpts k) (fpts e).

(** The exceptions that a malformed document makes the interpreter raise. *)
Definition interpreter_fault (e : exn) : Prop :=
  e = AttributeError \/ e = KeyError \/ e = TypeError \/ e = OverflowError.

(** Floats that are not NaN are ordered like triples of integers: below
    zero, zero or above it; then the exponent; then the mantissa. *)
Definition lex3 (a b : Z * Z * Z) : comparison :=
  let '(a1, a2, a3) := a in
  let '(b1, b2, b3) := b in
  match a1 ?= b1 with
  | Eq => match a2 ?= b2 with Eq => a3 ?= b3 | c => c end
  | c => c
  end.

Definition rank (f : float) : option (Z * Z * Z) :=
  match f with
  | S754_nan => None
  | S754_zero _ => Some (0, 0, 0)
  | S754_infinity s => Some (if s then -2 else 2, 0, 0)
  | S754_finite s m e => Some (if s then (-1, - e, Z.neg m) else (1, e, Z.pos m))
  end.

(** ** The shapes of the data model *)

(** A user: an object with a [user_id] that can key a dict and a
    [display_name]. *)
Definition well_formed_user (user : value) : bool :=
  match user with
  | VDict fields =>
      match lookup "user_id" fields, lookup "display_name" fields with
      | Some user_id, Some _ => hashable user_id
      | _, _ => false
      end
  | _ => false
  end.

Definition absent_or_dict (field : option value) : bool :=
  match field with
  | None | Some (VDict _) => true
  | Some _ => false
  end.

(** [float(v)] does not overflow. *)
Definition in_float_range (v : value) : bool :=
  match to_float v with
  | Raise OverflowError => false
  | _ => true
  end.

Definition is_int (v : value) : bool :=
  match v with
  | VInt _ => true
  | _ => false
  end.

(** A roster: an object whose [owner_id], when it is not empty, can key a
    dict; whose [metadata] and [settings], when present, are objects; whose
    [wins] is an integer; and whose two score fields are in the range of a
    float. *)
Definition well_formed_roster (roster : value) : bool :=
  match roster with
  | VDict fields =>
      match lookup "owner_id" fields with
      | Some owner_id => negb (truthy owner_id) || hashable owner_id
      | None => true
      end
      && absent_or_dict (lookup "metadata" fields)
      && absent_or_dict (lookup "settings" fields)
      && is_int (or_zero (setting roster "wins"))
      && in_float_range (or_zero (setting roster "fpts"))
      && in_float_range (or_zero (setting roster "fpts_decimal"))
  | _ => false
  end.

(** ** Example data *)

(** A world that serves the three documents of a league and nothing else,
    with a text-generation service that answers [reply]. *)
Definition serving (league_id : string) (league rosters users : response)
    (answer : reply) : world :=
  {| http := fun url =>
       if String.eqb url (league_details_url league_id) then league
       else if String.eqb url (rosters_url league_id) then rosters
       else if String.eqb url (users_url league_id) then users
       else Failed "404 Client Error: Not Found";
     genai := fun _ => answer |}.

Definition user (user_id display_name : string) : value :=
  VDict [("user_id", VStr user_id); ("display_name", VStr display_name)].

Definition dynasty : response := Body (VDict [("name", VStr "Dynasty")]).

Definition ann_and_bob : response := Body (VList [user "u1" "Ann"; user "u2" "Bob"]).

Definition three_users : response :=
  Body (VList [user "u1" "Ann"; user "u2" "Bob"; user "u3" "Cyd"]).

(** A roster as the API documents it, owned by Ann. *)
Definition roster_of_ann : value :=
  VDict [ ("owner_id", VStr "u1");
          ("settings", VDict [ ("wins", VInt 5); ("losses", VInt 9); ("ties", VInt 0);
                               ("fpts", VInt 1617); ("fpts_decimal", VInt 78) ]) ].

(** The same without [fpts_decimal]. *)
Definition roster_without_decimal : value :=
  VDict [ ("owner_id", VStr "u1");
          ("settings", VDict [ ("wins", VInt 5); ("losses", VInt 9); ("ties", VInt 0);
                               ("fpts", VInt 1617) ]) ].

(** A roster with an owner and [metadata] set to [null]. *)
Definition roster_with_null_metadata : value :=
  VDict [ ("owner_id", VStr "u1"); ("metadata", VNone);
          ("settings", VDict [("wins", VInt 5); ("fpts", VInt 1617)]) ].

(** Rosters with no owner, with an unknown owner, with a team name. *)
Definition roster_unowned : value :=
  VDict [("owner_id", VNone); ("settings", VDict [("wins", VInt 7)])].

Definition roster_of_stranger : value :=
  VDict [("owner_id", VStr "u9"); ("settings", VDict [("wins", VInt 8)])].

(** Rosters out of the data model: an [owner_id] that is a list, and a
    roster of a known owner whose [settings] is text. *)
Definition roster_with_list_owner : value :=
  VDict [("owner_id", VList [VStr "u1"]); ("settings", VDict [("wins", VInt 8)])].

Definition roster_with_text_settings : value :=
  VDict [("owner_id", VStr "u1"); ("settings", VStr "5-9")].

Definition roster_named (owner_id : string) (team_name : value) : value :=
  VDict [ ("owner_id", VStr owner_id);
          ("metadata", VDict [("team_name", team_name)]) ].

(** A roster with the given owner, wins and [fpts] field. *)
Definition roster (owner_id : string) (wins fpts : value) : value :=
  VDict [ ("owner_id", VStr owner_id);
          ("settings", VDict [("wins", wins); ("fpts", fpts)]) ].

Definition plain_entry (owner team : value) : entry :=
  {| owner_name := owner; team_name := team;
     wins := VInt 0; losses := VInt 0; ties := VInt 0; fpts := fzero |}.

(** The three teams of the specification's example. *)
Definition team (name : string) (wins : Z) (fpts : float) : entry :=
  {| owner_name := VStr name; team_name := VStr name;
     wins := VInt wins; losses := VInt 0; ties := VInt 0; fpts := fpts |}.

Definition team_A : entry := team "A" 10 (decimal_to_float false 10005 (-1)).
Definition team_B : entry := team "B" 10 (decimal_to_float false 12000 (-1)).
Definition team_C : entry := team "C" 9 (decimal_to_float false 20000 (-1)).

(** ** What a trace holds *)

(** The addresses requested, the prompts sent and the lines printed, each
    in the order of the trace. *)
Definition requested (t : list event) : list string :=
  flat_map (fun ev => match ev with Requested url => [url] | _ => [] end) t.

Definition prompted (t : list event) : list string :=
  flat_map (fun ev => match ev with Prompted prompt => [prompt] | _ => [] end) t.

Definition printed (t : list event) : list string :=
  flat_map (fun ev => match ev with Printed line => [line] | _ => [] end) t.

(** What line 76 prints for a failed request. *)
Definition failure_line (msg : string) : string :=
  "Error fetching Sleeper data: " +++ msg.

(** What [generate_site_update_summary] returns for a reply of the
    service. *)
Definition summary_of (r : reply) : string :=
  match r with
  | Text t => t
  | Fault msg => "Error generating content with GenAI: " +++ msg
  end.

(** The [user_id] of a user is the string [s]. *)
Definition has_id (s : string) (user : value) : Prop :=
  getitem user "user_id" = Ok (VStr s).

(* ================================================================= *)
(** * Basic facts *)

(** The built-in functions on some inputs, as CPython 3.11 answers. *)
Example float_of_text :
  float_of_str "abc" = Raise ValueError
  /\ float_of_str "" = Raise ValueError
  /\ float_of_str "1e" = Raise ValueError
  /\ float_of_str "1__0" = Raise ValueError
  /\ float_of_str " 1_617.78 " = Ok (decimal_to_float false 161778 (-2))
  /\ float_of_str "-.5E1" = Ok (round_float (-5) 0 false)
  /\ float_of_str "1e400" = Ok (S754_infinity false)
  /\ float_of_str "-Infinity" = Ok (S754_infinity true)
  /\ float_of_str "NaN" = Ok S754_nan.
Proof.
  repeat split; vm_compute; reflexivity.
Qed.

Example float_of_numbers :
  to_float (VInt 1617) = Ok (S754_finite false 7111641208455168 (-42))
  /\ to_float (VBool true) = Ok fone
  /\ to_float (VInt (10 ^ 400)) = Raise OverflowError
  /\ to_float VNone = Raise TypeError
  /\ to_float (VList []) = Raise TypeError.
Proof.
  repeat split; vm_compute; reflexivity.
Qed.

Example text_of_floats :
  format_2f (decimal_to_float false 2675 (-3)) = "2.67"
  /\ format_2f (decimal_to_float false 1005 (-1)) = "100.50"
  /\ format_2f (decimal_to_float true 1 (-3)) = "-0.00"
  /\ format_2f S754_nan = "nan"
  /\ float_repr (fadd (decimal_to_float false 1 (-1)) (decimal_to_float false 2 (-1)))
     = "0.30000000000000004"
  /\ float_repr (round_float (10 ^ 16) 0 false) = "1e+16"
  /\ float_repr (decimal_to_float false 1 (-5)) = "1e-05"
  /\ float_repr (round_float 100 0 false) = "100.0".
Proof.
  repeat split; vm_compute; reflexivity.
Qed.

Example text_of_values :
  str (VStr "Aces") = "Aces"
  /\ str VNone = "None"
  /\ str (VBool true) = "True"
  /\ str (VInt (-12)) = "-12"
  /\ str (VList [VInt 1; VStr "a"; VNone]) = "[1, 'a', None]"
  /\ str (VDict [("k", VList [VFloat fone])]) = "{'k': [1.0]}".
Proof.
  repeat split; vm_compute; reflexivity.
Qed.

Example comparisons :
  eqb (VInt 1) (VFloat fone) = true
  /\ eqb (VBool true) (VInt 1) = true
  /\ eqb (VStr "1") (VInt 1) = false
  /\ eqb (VFloat S754_nan) (VFloat S754_nan) = false
  /\ ltb (VInt 3) (VStr "x") = Raise TypeError
  /\ ltb VNone VNone = Raise TypeError
  /\ ltb (VStr "10") (VStr "9") = Ok true
  /\ ltb (VList [VInt 1; VInt 2]) (VList [VInt 1; VInt 3]) = Ok true
  /\ truthy (VStr "") = false
  /\ truthy (VFloat S754_nan) = true.
Proof.
  repeat split; vm_compute; reflexivity.
Qed.

Lemma bind_ok {A B} (m : exc A) (f : A -> exc B) (b : B) :
  bind m f = Ok b -> exists a, m = Ok a /\ f a = Ok b.
Proof.
  destruct m as [a|e]; simpl; intros H; [eauto | discriminate].
Qed.

Lemma append_empty_r (s : string) : s +++ "" = s.
Proof.
  induction s as [|c s IH]; simpl; [reflexivity | now rewrite IH].
Qed.

Lemma append_assoc (a b c : string) : (a +++ b) +++ c = a +++ (b +++ c).
Proof.
  induction a as [|x a IH]; simpl; [reflexivity | now rewrite IH].
Qed.

(** Joining with the empty separator concatenates. *)
Lemma concat_cons (x : string) (l : list string) :
  String.concat "" (x :: l) = x +++ String.concat "" l.
Proof.
  destruct l as [|y l]; simpl; [now rewrite append_empty_r | reflexivity].
Qed.

Lemma concat_app (l1 l2 : list string) :
  String.concat "" (l1 ++ l2) = String.concat "" l1 +++ String.concat "" l2.
Proof.
  induction l1 as [|x l1 IH].
  - reflexivity.
  - change ((x :: l1) ++ l2) with (x :: (l1 ++ l2)).
    now rewrite !concat_cons, IH, append_assoc.
Qed.

Lemma append_teams_eq (teams : list entry) (parts : list string) :
  append_teams teams parts = parts ++ map team_line teams.
Proof.
  revert parts; induction teams as [|t teams IH]; intros parts; simpl.
  - now rewrite app_nil_r.
  - rewrite IH, <- app_assoc. reflexivity.
Qed.

Lemma build_prompt_eq (name season : value) (teams : list entry) :
  build_prompt name season teams =
  preamble name season +++ String.concat "" (map team_line teams) +++ closing.
Proof.
  unfold build_prompt.
  rewrite append_teams_eq, !concat_app.
  rewrite append_assoc. f_equal.
  unfold preamble. rewrite !concat_cons. cbn [String.concat].
  now rewrite ?append_assoc, append_empty_r.
Qed.

(** What [generate_site_update_summary] does on a table that is not empty. *)
Lemma run_generate (w : world) (rep : report) (season : value) :
  standings rep <> [] ->
  run w (generate_site_update_summary (Some rep) season) =
  let prompt := build_prompt (league_name rep) season (standings rep) in
  ([Printed (newline +++ "--- Sending to GenAI ---"); Prompted prompt],
   Ok match genai w prompt with
      | Text t => t
      | Fault msg => "Error generating content with GenAI: " +++ msg
      end).
Proof.
  intros Hne. unfold generate_site_update_summary.
  destruct (standings rep) as [|t ts] eqn:E; [contradiction|].
  cbn [print pbind run].
  destruct (genai w _); reflexivity.
Qed.

(** [round_half_even] returns a nearest integer. *)
Lemma round_half_even_nearest (num den : Z) :
  0 <= num -> 0 < den ->
  0 <= round_half_even num den /\
  2 * Z.abs (num - round_half_even num den * den) <= den.
Proof.
  intros Hn Hd. unfold round_half_even.
  pose proof (Z.div_mod num den ltac:(lia)) as E.
  pose proof (Z.mod_pos_bound num den Hd) as B.
  pose proof (Z.div_pos num den Hn Hd) as Q.
  destruct (Z.compare_spec (2 * (num mod den)) den) as [C|C|C];
    [destruct (Z.even (num / den))| |]; split; nia.
Qed.

(** Two digits for every number of hundredths. *)
Lemma pad2_length (c : Z) : 0 <= c < 100 -> String.length (pad2 c) = 2%nat.
Proof.
  intros H.
  assert (A : forallb (fun n => Nat.eqb (String.length (pad2 (Z.of_nat n))) 2)
                      (seq 0 100) = true) by (vm_compute; reflexivity).
  rewrite forallb_forall in A.
  specialize (A (Z.to_nat c)). rewrite Z2Nat.id in A by lia.
  apply Nat.eqb_eq, A, in_seq. lia.
Qed.

(* ================================================================= *)
(** * The summary generator *)

(** C5.  Given no league data, or league data whose standings are empty,
    [generate_site_update_summary] returns the fixed message and performs
    no effect at all: in particular it sends no prompt to the
    text-generation service. *)
Theorem no_data_no_call (w : world) (season name : value) :
  run w (generate_site_update_summary None season)
  = ([], Ok "Could not fetch league data to generate a summary.")
  /\ run w (generate_site_update_summary
              (Some {| league_name := name; standings := [] |}) season)
     = ([], Ok "Could not fetch league data to generate a summary.").
Proof.
  split; reflexivity.
Qed.

(** C7.  On standings that are not empty, a fault of the text-generation
    call is caught and turned into a string that describes it; and whatever
    the data and the service do, the function returns a string. *)
Theorem generation_fault_is_reported (w : world) (data : option report)
    (season : value) :
  (forall rep msg,
     data = Some rep -> standings rep <> [] ->
     genai w (build_prompt (league_name rep) season (standings rep)) = Fault msg ->
     result w (generate_site_update_summary data season)
     = Ok ("Error generating content with GenAI: " +++ msg))
  /\ exists text, result w (generate_site_update_summary data season) = Ok text.
Proof.
  split.
  - intros rep msg -> Hne Hfault. unfold result.
    rewrite (run_generate w rep season Hne). cbn. now rewrite Hfault.
  - destruct data as [rep|]; [|eexists; reflexivity].
    destruct (standings rep) as [|t ts] eqn:E.
    + exists could_not_fetch. unfold result, generate_site_update_summary.
      now rewrite E.
    + unfold result. rewrite run_generate by (rewrite E; discriminate).
      cbn. eexists; reflexivity.
Qed.

Lemma generation_fault_is_reported_witness :
  let w := serving LEAGUE_ID dynasty (Failed "unused") (Failed "unused")
             (Fault "429 Resource has been exhausted") in
  let rep := {| league_name := VStr "Dynasty"; standings := [team_A] |} in
  result w (generate_site_update_summary (Some rep) SEASON)
  = Ok "Error generating content with GenAI: 429 Resource has been exhausted".
Proof.
  intros w rep.
  refine (proj1 (generation_fault_is_reported w (Some rep) SEASON)
            rep "429 Resource has been exhausted" eq_refl _ eq_refl).
  discriminate.
Defined.

(** C8.  The prompt sent to the service depends on the league name, the
    season and the standings only: it is the fixed preamble with the two
    names, one line per entry in the order of the standings, and the fixed
    closing instruction.  A line reads
    [- team (owner): wins-losses (ties ties), fpts Fpts], where [fpts] is
    the number of hundredths nearest to the score, printed with two digits
    after the point. *)
Theorem prompt_is_the_template (w : world) (rep : report) (season : value) :
  standings rep <> [] ->
  trace w (generate_site_update_summary (Some rep) season)
  = [ Printed (newline +++ "--- Sending to GenAI ---");
      Prompted (preamble (league_name rep) season
                +++ String.concat "" (map team_line (standings rep))
                +++ closing) ]
  /\ (forall team,
        team_line team
        = "- " +++ str (team_name team) +++ " (" +++ str (owner_name team)
          +++ "): " +++ str (wins team) +++ "-" +++ str (losses team)
          +++ " (" +++ str (ties team) +++ " ties), "
          +++ format_2f (fpts team) +++ " Fpts" +++ newline)
  /\ (forall s m e,
        exists cents,
          format_2f (S754_finite s m e)
          = (if s then "-" else "") +++ str_of_int (cents / 100) +++ "."
            +++ pad2 (cents mod 100)
          /\ String.length (pad2 (cents mod 100)) = 2%nat
          /\ 0 <= cents
          /\ 2 * Z.abs (Z.pos m * 100 * 2 ^ Z.max e 0 - cents * 2 ^ Z.max (- e) 0)
             <= 2 ^ Z.max (- e) 0).
Proof.
  intros Hne. split; [|split].
  - unfold trace. rewrite (run_generate w rep season Hne). cbn [fst].
    now rewrite build_prompt_eq.
  - reflexivity.
  - intros s m e. unfold format_2f.
    destruct (Z.leb_spec 0 e) as [He|He].
    + exists (Z.pos m * 2 ^ e * 100).
      rewrite Z.max_l, Z.max_r by lia.
      repeat split.
      * apply pad2_length, Z.mod_pos_bound; lia.
      * pose proof (Z.pow_pos_nonneg 2 e); lia.
      * replace (Z.pos m * 100 * 2 ^ e - Z.pos m * 2 ^ e * 100 * 2 ^ 0) with 0
          by (rewrite Z.pow_0_r; ring).
        simpl; lia.
    + exists (round_half_even (Z.pos m * 100) (2 ^ (- e))).
      rewrite Z.max_r, Z.max_l by lia.
      assert (Hd : 0 < 2 ^ (- e)) by (apply Z.pow_pos_nonneg; lia).
      destruct (round_half_even_nearest (Z.pos m * 100) (2 ^ (- e))) as [Hc Hn];
        [lia | exact Hd |].
      repeat split.
      * apply pad2_length, Z.mod_pos_bound; lia.
      * exact Hc.
      * rewrite Z.pow_0_r, Z.mul_1_r. exact Hn.
Qed.

(** C8 at the table of the specification's example. *)
Lemma prompt_is_the_template_witness :
  exists lines,
    trace {| http := fun _ => Failed ""; genai := fun _ => Text "ok" |}
      (generate_site_update_summary
         (Some {| league_name := VStr "Dynasty";
                  standings :=
                    [ {| owner_name := VStr "Ann"; team_name := VStr "Aces";
                         wins := VInt 10; losses := VInt 3; ties := VInt 0;
                         fpts := decimal_to_float false 12000 (-1) |} ] |})
         SEASON)
    = [ Printed (newline +++ "--- Sending to GenAI ---");
        Prompted (preamble (VStr "Dynasty") SEASON +++ lines +++ closing) ]
    /\ lines = "- Aces (Ann): 10-3 (0 ties), 1200.00 Fpts" +++ newline.
Proof.
  eexists. split.
  - refine (proj1 (prompt_is_the_template _ _ SEASON _)).
    simpl; discriminate.
  - vm_compute. reflexivity.
Defined.

(* ================================================================= *)
(** * The fetcher *)

(** The result of [fetch_sleeper_data], request by request. *)
Lemma result_fetch (w : world) (league_id : string) :
  result w (fetch_sleeper_data league_id) =
  match http w (league_details_url league_id) with
  | Failed _ => Ok None
  | Body league_details =>
      match get league_details "name" (VStr "Your Dynasty League") with
      | Raise e => handled e
      | Ok name =>
          match http w (rosters_url league_id) with
          | Failed _ => Ok None
          | Body rosters =>
              match http w (users_url league_id) with
              | Failed _ => Ok None
              | Body users =>
                  match build_standings rosters users with
                  | Raise e => handled e
                  | Ok table =>
                      Ok (Some {| league_name := name; standings := table |})
                  end
              end
          end
      end
  end.
Proof.
  unfold result, fetch_sleeper_data, get_json, print.
  cbn [pbind try_except run].
  destruct (http w (league_details_url league_id)) as [msg|league_details];
    cbn [pbind try_except run snd]; [reflexivity|].
  destruct (get league_details "name" _) as [name|e];
    cbn [lift pbind try_except run snd].
  2: { destruct e; reflexivity. }
  destruct (http w (rosters_url league_id)) as [msg|rosters];
    cbn [pbind try_except run snd]; [reflexivity|].
  destruct (http w (users_url league_id)) as [msg|users];
    cbn [pbind try_except run snd]; [reflexivity|].
  destruct (build_standings rosters users) as [table|e];
    cbn [lift pbind try_except run snd]; [reflexivity|].
  destruct e; reflexivity.
Qed.

(** The loop visits every roster once, in order. *)
Lemma collect_rows (user_map : dict) (rosters : list value) :
  forall acc table,
    collect user_map rosters acc = Ok table <->
    exists rows,
      Forall2 (fun roster row => roster_entry user_map roster = Ok row) rosters rows
      /\ table = acc ++ kept rows.
Proof.
  induction rosters as [|roster rest IH]; intros acc table; simpl.
  - split.
    + intros [= <-]. exists []. split; [constructor | now rewrite app_nil_r].
    + intros (rows & F & ->). inversion F; subst. simpl. now rewrite app_nil_r.
  - split.
    + intros H. apply bind_ok in H as (row & Hrow & H).
      apply IH in H as (rows & F & ->).
      exists (row :: rows). split; [now constructor|].
      destruct row; simpl; [now rewrite <- app_assoc | reflexivity].
    + intros (rows & F & ->). inversion F as [|? row ? rows' Hrow F']; subst.
      rewrite Hrow. simpl. apply IH. exists rows'. split; [assumption|].
      destruct row; simpl; [now rewrite <- app_assoc | reflexivity].
Qed.

(** The sort rearranges and loses nothing. *)
Lemma insert_descending_perm {A} (key : A -> value * float) (x : A) :
  forall sorted out,
    insert_descending key x sorted = Ok out -> Permutation (x :: sorted) out.
Proof.
  induction sorted as [|y rest IH]; simpl; intros out H.
  - injection H as <-. reflexivity.
  - apply bind_ok in H as (less & _ & H). destruct less.
    + apply bind_ok in H as (rest' & Hr & [= <-]).
      rewrite perm_swap. constructor. now apply IH.
    + injection H as <-. reflexivity.
Qed.

Lemma sort_reverse_perm {A} (key : A -> value * float) :
  forall items out, sort_reverse key items = Ok out -> Permutation items out.
Proof.
  induction items as [|x rest IH]; simpl; intros out H.
  - injection H as <-. constructor.
  - apply bind_ok in H as (sorted & Hs & H).
    apply insert_descending_perm in H. rewrite <- H. constructor. now apply IH.
Qed.

(** A report holds the sorted rows of the loop, with the league's name. *)
Lemma fetch_report (w : world) (league_id : string) (rep : report) :
  result w (fetch_sleeper_data league_id) = Ok (Some rep) ->
  exists user_map rosters rows,
    fetched w league_id user_map rosters
    /\ Forall2 (fun roster row => roster_entry user_map roster = Ok row) rosters rows
    /\ sort_reverse sort_key (kept rows) = Ok (standings rep).
Proof.
  rewrite result_fetch.
  destruct (http w (league_details_url league_id)) as [?|league_details];
    [discriminate|].
  destruct (get league_details "name" _) as [name|e];
    [|destruct e; discriminate].
  destruct (http w (rosters_url league_id)) as [?|rosters_body] eqn:Er;
    [discriminate|].
  destruct (http w (users_url league_id)) as [?|users_body] eqn:Eu;
    [discriminate|].
  destruct (build_standings rosters_body users_body) as [table|e] eqn:Eb;
    [|destruct e; discriminate].
  intros [= <-]. cbn [standings].
  unfold build_standings in Eb.
  apply bind_ok in Eb as (user_map & Hum & Eb).
  apply bind_ok in Eb as (rosters & Hit & Eb).
  apply bind_ok in Eb as (table0 & Hc & Hs).
  apply collect_rows in Hc as (rows & F & ->).
  exists user_map, rosters, rows. split; [|split; assumption].
  exists rosters_body, users_body. now rewrite Er, Eu.
Qed.

Lemma in_kept (rows : list (option entry)) (e : entry) :
  In e (kept rows) <-> In (Some e) rows.
Proof.
  unfold kept. rewrite in_flat_map. split.
  - intros ([e'|] & Hin & He); simpl in He; [|contradiction].
    destruct He as [<-|[]]. assumption.
  - intros H. exists (Some e). split; [assumption | now left].
Qed.

Lemma Forall2_in_r {A B} (R : A -> B -> Prop) (l : list A) (l' : list B) (b : B) :
  Forall2 R l l' -> In b l' -> exists a, In a l /\ R a b.
Proof.
  induction 1 as [|a b' l l' Hab F IH]; simpl; [contradiction|].
  intros [<-|Hin]; [eauto|]. destruct (IH Hin) as (a' & ? & ?). eauto.
Qed.

(** Every entry of a report was made by the loop body from one roster. *)
Lemma fetch_entry_origin (w : world) (league_id : string) (rep : report) (e : entry) :
  result w (fetch_sleeper_data league_id) = Ok (Some rep) ->
  In e (standings rep) ->
  exists user_map rosters roster,
    fetched w league_id user_map rosters
    /\ In roster rosters
    /\ roster_entry user_map roster = Ok (Some e).
Proof.
  intros H Hin. apply fetch_report in H as (user_map & rosters & rows & Hf & F & Hs).
  apply sort_reverse_perm in Hs.
  apply (Permutation_in _ (Permutation_sym Hs)), in_kept in Hin.
  destruct (Forall2_in_r _ _ _ _ F Hin) as (roster & Hr & He).
  exists user_map, rosters, roster. auto.
Qed.

Lemma get_dict (fields : list (string * value)) (key : string) (default : value) :
  get (VDict fields) key default
  = Ok match lookup key fields with Some v => v | None => default end.
Proof.
  unfold get. now destruct (lookup key fields).
Qed.

(** The loop body, read backwards from an entry. *)
Lemma roster_entry_inv (user_map : dict) (roster : value) (e : entry) :
  roster_entry user_map roster = Ok (Some e) ->
  exists owner_id,
    owner_id_of roster = Some owner_id
    /\ truthy owner_id = true
    /\ contains user_map owner_id = Ok true
    /\ dict_find owner_id user_map = Some (owner_name e)
    /\ team_name e = match metadata_team_name roster with
                     | Some v => v
                     | None => owner_name e
                     end
    /\ wins e = or_zero (setting roster "wins")
    /\ losses e = or_zero (setting roster "losses")
    /\ ties e = or_zero (setting roster "ties")
    /\ fpts_of (or_zero (setting roster "fpts"))
               (or_zero (setting roster "fpts_decimal")) = Ok (fpts e).
Proof.
  unfold roster_entry, owner_id_of, metadata_team_name, setting, or_zero.
  destruct roster as [| | | | |?|fields]; try discriminate.
  rewrite !get_dict. cbn [bind].
  destruct (lookup "owner_id" fields) as [owner_id|] eqn:Eo; cbn [truthy];
    [|discriminate].
  destruct (truthy owner_id) eqn:Et; [|discriminate].
  destruct (contains user_map owner_id) as [known|] eqn:Ec; cbn [bind];
    [|discriminate].
  destruct known; [|discriminate].
  pose proof Ec as Hknown.
  unfold dict_getitem. unfold contains in Ec.
  destruct (hashable owner_id) eqn:Eh; [|discriminate].
  destruct (dict_find owner_id user_map) as [name|] eqn:Ef; [|discriminate].
  cbn [bind].
  intros H. exists owner_id.
  destruct (lookup "metadata" fields) as [metadata|];
    [destruct metadata|];
    (destruct (lookup "settings" fields) as [settings|];
       [destruct settings|]);
    rewrite ?get_dict in H; cbn [bind get lookup] in H; try discriminate;
    (destruct (fpts_of _ _) as [x|] eqn:Ex in H; [|discriminate]);
    cbn [bind] in H; injection H as <-; cbn;
    repeat split; assumption || reflexivity.
Qed.

(* ================================================================= *)
(** * Floats that are not negative *)

Lemma nonneg_cases (f : float) :
  nonneg f <->
  match f with
  | S754_zero _ => True
  | S754_infinity s | S754_finite s _ _ => s = false
  | S754_nan => False
  end.
Proof.
  unfold nonneg, fleb, SFleb, fzero.
  destruct f as [s|s| |s m e]; simpl; try destruct s; simpl;
    split; intros H; try reflexivity; try discriminate; try contradiction; exact I.
Qed.

Section Rounding.
Variables prec emax : Z.

Lemma shr_1_nonneg (mrs : shr_record) :
  0 <= shr_m mrs -> 0 <= shr_m (shr_1 mrs).
Proof.
  destruct mrs as [m r s]. destruct m as [|p|p]; simpl; intros H;
    try destruct p; simpl; lia.
Qed.

Lemma iter_shr_1_nonneg (p : positive) :
  forall mrs, 0 <= shr_m mrs -> 0 <= shr_m (iter_pos shr_1 p mrs).
Proof.
  induction p as [p IH|p IH|]; intros mrs H; simpl.
  - apply IH, IH, shr_1_nonneg, H.
  - apply IH, IH, H.
  - apply shr_1_nonneg, H.
Qed.

Lemma shr_fexp_nonneg (m e : Z) (l : location) :
  0 <= m -> 0 <= shr_m (fst (shr_fexp prec emax m e l)).
Proof.
  intros H. unfold shr_fexp, shr.
  assert (H0 : 0 <= shr_m (shr_record_of_loc m l))
    by (destruct l as [|[]]; exact H).
  destruct (fexp prec emax (Zdigits2 m + e) - e) as [|p|p]; simpl;
    [exact H0 | apply iter_shr_1_nonneg, H0 | exact H0].
Qed.

Lemma round_nearest_even_nonneg (m : Z) (l : location) :
  0 <= m -> 0 <= round_nearest_even m l.
Proof.
  intros H. destruct l as [|[]]; simpl; try destruct (Z.even m); lia.
Qed.

(** Rounding a mantissa that is not negative gives a float that is not
    negative. *)
Lemma binary_round_aux_nonneg (m e : Z) (l : location) :
  0 <= m -> nonneg (binary_round_aux prec emax false m e l).
Proof.
  intros H. unfold binary_round_aux.
  pose proof (shr_fexp_nonneg m e l H) as H1.
  destruct (shr_fexp prec emax m e l) as [mrs' e']. cbn [fst] in H1.
  pose proof (shr_fexp_nonneg _ e' loc_Exact
                (round_nearest_even_nonneg _ (loc_of_shr_record mrs') H1)) as H2.
  destruct (shr_fexp prec emax _ e' loc_Exact) as [mrs'' e'']. cbn [fst] in H2.
  apply nonneg_cases.
  destruct (shr_m mrs'') as [|p|p]; [exact I | | lia].
  destruct (e'' <=? emax - prec); reflexivity.
Qed.

Lemma binary_round_nonneg (m : positive) (e : Z) :
  nonneg (binary_round prec emax false m e).
Proof.
  unfold binary_round.
  destruct (shl_align m e _) as [mz ez]. apply binary_round_aux_nonneg. lia.
Qed.

Lemma SFadd_nonneg (x y : float) :
  nonneg x -> nonneg y -> nonneg (SFadd prec emax x y).
Proof.
  intros Hx Hy. apply nonneg_cases in Hx, Hy.
  destruct x as [sx|sx| |sx mx ex], y as [sy|sy| |sy my ey];
    try contradiction; subst; cbn [SFadd];
    try (apply nonneg_cases; try destruct sx; try destruct sy; easy).
  cbn [cond_Zopp]. rewrite <- Pos2Z.inj_add. cbn [binary_normalize].
  apply binary_round_nonneg.
Qed.

Lemma SFdiv_nonneg (x : float) (my : positive) (ey : Z) :
  nonneg x -> nonneg (SFdiv prec emax x (S754_finite false my ey)).
Proof.
  intros Hx. apply nonneg_cases in Hx.
  destruct x as [sx|sx| |sx mx ex]; try contradiction; subst;
    cbn [SFdiv xorb]; try (apply nonneg_cases; try destruct sx; easy).
  unfold SFdiv_core_binary.
  set (m' := match _ - _ - _ with Z0 => _ | Zpos _ => _ | Zneg _ => _ end).
  assert (Hm : 0 <= m').
  { subst m'. destruct (_ - _ - _); [lia | | lia].
    rewrite Z.shiftl_mul_pow2 by lia. apply Z.mul_nonneg_nonneg; [lia|].
    apply Z.pow_nonneg. lia. }
  pose proof (Z.div_pos m' (Z.pos my) Hm ltac:(lia)) as Hq.
  unfold Z.div in Hq.
  destruct (Z.div_eucl m' (Z.pos my)) as [q r]. cbn [fst] in Hq.
  apply binary_round_aux_nonneg, Hq.
Qed.
End Rounding.

(** The score of two parts that are not negative is not negative. *)
Lemma score_nonneg (whole hundredths : float) :
  nonneg whole -> nonneg hundredths ->
  nonneg (fadd whole (fdiv hundredths fhundred)).
Proof.
  intros Hw Hh. apply SFadd_nonneg; [exact Hw|].
  change fhundred with (S754_finite false 7036874417766400 (-46)).
  now apply SFdiv_nonneg.
Qed.

Lemma standing_entry_made (w : world) (league_id : string) (rep : report) (e : entry) :
  result w (fetch_sleeper_data league_id) = Ok (Some rep) ->
  In e (standings rep) ->
  exists user_map roster, made_from w league_id user_map roster e.
Proof.
  intros H Hin.
  destruct (fetch_entry_origin w league_id rep e H Hin)
    as (user_map & rosters & roster & Hf & Hr & He).
  exists user_map, roster, rosters. auto.
Qed.

(* ================================================================= *)
(** * The score *)

Lemma fpts_of_rejected_first (a b : value) :
  rejected a -> fpts_of a b = Ok fzero.
Proof.
  unfold fpts_of. intros [H|H]; rewrite H; reflexivity.
Qed.

Lemma fpts_of_rejected_second (a b : value) (whole : float) :
  to_float a = Ok whole -> rejected b -> fpts_of a b = Ok fzero.
Proof.
  unfold fpts_of. intros Ha [H|H]; rewrite Ha, H; reflexivity.
Qed.

Lemma fpts_of_converted (a b : value) (whole hundredths : float) :
  to_float a = Ok whole -> to_float b = Ok hundredths ->
  fpts_of a b = Ok (fadd whole (fdiv hundredths fhundred)).
Proof.
  unfold fpts_of. intros -> ->. reflexivity.
Qed.

(** When the score is computed at all, a rejected field makes it [0.0]. *)
Lemma fpts_of_rejected (a b : value) (f : float) :
  fpts_of a b = Ok f -> rejected a \/ rejected b -> f = fzero.
Proof.
  intros H [Ha|Hb].
  - rewrite (fpts_of_rejected_first a b Ha) in H. now injection H.
  - destruct (to_float a) as [whole|e] eqn:Ea.
    + rewrite (fpts_of_rejected_second a b whole Ea Hb) in H. now injection H.
    + unfold fpts_of in H. rewrite Ea in H.
      destruct e; cbn in H; try discriminate; now injection H.
Qed.

(** C1, as the code has it.  For the entry made from a roster, with each of
    [settings.fpts] and [settings.fpts_decimal] read as [0] when it is
    missing: the score is [0.0] when [float()] rejects either field with a
    [ValueError] or a [TypeError], as it does for [null], the empty string,
    text that is not a numeral, a list or an object; when both fields
    convert, the score is [float(fpts) + float(fpts_decimal) / 100], and it
    is not negative when neither part is. *)
Theorem entry_fpts (w : world) (league_id : string) (rep : report) (e : entry) :
  result w (fetch_sleeper_data league_id) = Ok (Some rep) ->
  In e (standings rep) ->
  exists user_map roster,
    made_from w league_id user_map roster e
    /\ let fpts_raw := or_zero (setting roster "fpts") in
       let fpts_decimal_raw := or_zero (setting roster "fpts_decimal") in
       (rejected fpts_raw \/ rejected fpts_decimal_raw -> fpts e = fzero)
       /\ (forall whole hundredths,
             to_float fpts_raw = Ok whole ->
             to_float fpts_decimal_raw = Ok hundredths ->
             fpts e = fadd whole (fdiv hundredths fhundred)
             /\ (nonneg whole -> nonneg hundredths -> nonneg (fpts e)))
       /\ to_float (or_zero None) = Ok fzero
       /\ rejected VNone /\ rejected (VStr "") /\ rejected (VStr "abc")
       /\ (forall items, rejected (VList items))
       /\ (forall fields, rejected (VDict fields)).
Proof.
  intros H Hin.
  destruct (standing_entry_made w league_id rep e H Hin) as (user_map & roster & Hm).
  exists user_map, roster. split; [exact Hm|].
  destruct Hm as (rosters & _ & _ & He).
  apply roster_entry_inv in He as (owner_id & _ & _ & _ & _ & _ & _ & _ & _ & Hf).
  cbv zeta. split; [|split].
  - intros Hr. exact (fpts_of_rejected _ _ _ Hf Hr).
  - intros whole hundredths Ha Hb.
    rewrite (fpts_of_converted _ _ _ _ Ha Hb) in Hf. injection Hf as <-.
    split; [reflexivity | apply score_nonneg].
  - repeat split; try (right; reflexivity); try (left; vm_compute; reflexivity).
    all: intros; right; reflexivity.
Qed.

Lemma entry_fpts_witness :
  let w := serving LEAGUE_ID dynasty (Body (VList [roster_of_ann])) ann_and_bob (Text "") in
  let e := {| owner_name := VStr "Ann"; team_name := VStr "Ann";
              wins := VInt 5; losses := VInt 9; ties := VInt 0;
              fpts := decimal_to_float false 161778 (-2) |} in
  result w (fetch_sleeper_data LEAGUE_ID)
  = Ok (Some {| league_name := VStr "Dynasty"; standings := [e] |})
  /\ exists user_map roster,
       made_from w LEAGUE_ID user_map roster e
       /\ let fpts_raw := or_zero (setting roster "fpts") in
          let fpts_decimal_raw := or_zero (setting roster "fpts_decimal") in
          (rejected fpts_raw \/ rejected fpts_decimal_raw -> fpts e = fzero)
          /\ (forall whole hundredths,
                to_float fpts_raw = Ok whole ->
                to_float fpts_decimal_raw = Ok hundredths ->
                fpts e = fadd whole (fdiv hundredths fhundred)
                /\ (nonneg whole -> nonneg hundredths -> nonneg (fpts e)))
          /\ to_float (or_zero None) = Ok fzero
          /\ rejected VNone /\ rejected (VStr "") /\ rejected (VStr "abc")
          /\ (forall items, rejected (VList items))
          /\ (forall fields, rejected (VDict fields)).
Proof.
  intros w e.
  assert (H : result w (fetch_sleeper_data LEAGUE_ID)
              = Ok (Some {| league_name := VStr "Dynasty"; standings := [e] |}))
    by (vm_compute; reflexivity).
  split; [exact H|].
  apply (entry_fpts w LEAGUE_ID _ e H). now left.
Defined.

(** C1 fails as stated: with [fpts = 1617] and no [fpts_decimal] the score
    of the entry is [1617.0], not [0.0]. *)
Lemma missing_field_counts_as_zero :
  let w := serving LEAGUE_ID dynasty (Body (VList [roster_without_decimal]))
             ann_and_bob (Text "") in
  setting roster_without_decimal "fpts_decimal" = None
  /\ exists e,
       result w (fetch_sleeper_data LEAGUE_ID)
       = Ok (Some {| league_name := VStr "Dynasty"; standings := [e] |})
       /\ to_float (VInt 1617) = Ok (fpts e)
       /\ fpts e <> fzero.
Proof.
  split; [reflexivity|].
  eexists. split; [vm_compute; reflexivity|].
  split; [vm_compute; reflexivity | discriminate].
Qed.

(* ================================================================= *)
(** * The order of floats *)

Lemma SFcompare_rank (a b : float) :
  SFcompare a b =
  match rank a, rank b with
  | Some x, Some y => Some (lex3 x y)
  | _, _ => None
  end.
Proof.
  destruct a as [sa|sa| |sa ma ea], b as [sb|sb| |sb mb eb];
    try destruct sa; try destruct sb; try reflexivity; cbn.
  rewrite Z.compare_opp, (Z.compare_antisym ea eb).
  destruct (ea ?= eb); reflexivity.
Qed.

Lemma lex3_spec (a b : Z * Z * Z) :
  let '(a1, a2, a3) := a in
  let '(b1, b2, b3) := b in
  match lex3 a b with
  | Lt => a1 < b1 \/ (a1 = b1 /\ (a2 < b2 \/ (a2 = b2 /\ a3 < b3)))
  | Eq => a1 = b1 /\ a2 = b2 /\ a3 = b3
  | Gt => b1 < a1 \/ (a1 = b1 /\ (b2 < a2 \/ (a2 = b2 /\ b3 < a3)))
  end.
Proof.
  destruct a as [[a1 a2] a3], b as [[b1 b2] b3]. unfold lex3.
  destruct (Z.compare_spec a1 b1), (Z.compare_spec a2 b2), (Z.compare_spec a3 b3); lia.
Qed.

(** [a] and [b] are both numbers, and [b <= a]. *)
Lemma fleb_rank (a b : float) :
  fleb a b = true <->
  exists x y, rank a = Some x /\ rank b = Some y /\ lex3 x y <> Gt.
Proof.
  unfold fleb, SFleb. rewrite SFcompare_rank.
  destruct (rank a) as [x|], (rank b) as [y|]; split;
    try discriminate; try (intros (? & ? & ? & ? & ?); discriminate).
  - intros H. exists x, y. repeat split. destruct (lex3 x y); congruence.
  - intros (x' & y' & [= <-] & [= <-] & H). destruct (lex3 x y); congruence.
Qed.

Lemma fltb_rank (a b : float) :
  fltb a b = true <->
  exists x y, rank a = Some x /\ rank b = Some y /\ lex3 x y = Lt.
Proof.
  unfold fltb, SFltb. rewrite SFcompare_rank.
  destruct (rank a) as [x|], (rank b) as [y|]; split;
    try discriminate; try (intros (? & ? & ? & ? & ?); discriminate).
  - intros H. exists x, y. repeat split. destruct (lex3 x y); congruence.
  - intros (x' & y' & [= <-] & [= <-] & H). now rewrite H.
Qed.

Lemma feqb_rank (a b : float) :
  feqb a b = true <->
  exists x y, rank a = Some x /\ rank b = Some y /\ lex3 x y = Eq.
Proof.
  unfold feqb, SFeqb. rewrite SFcompare_rank.
  destruct (rank a) as [x|], (rank b) as [y|]; split;
    try discriminate; try (intros (? & ? & ? & ? & ?); discriminate).
  - intros H. exists x, y. repeat split. destruct (lex3 x y); congruence.
  - intros (x' & y' & [= <-] & [= <-] & H). now rewrite H.
Qed.

Lemma rank_number (f : float) : is_nan f = false -> exists x, rank f = Some x.
Proof.
  destruct f; try discriminate; intros _; eexists; reflexivity.
Qed.

(** Two numbers are comparable. *)
Lemma fleb_total (a b : float) :
  is_nan a = false -> is_nan b = false -> fltb a b = false -> fleb b a = true.
Proof.
  intros Ha Hb Hlt.
  destruct (rank_number a Ha) as (x & Hx), (rank_number b Hb) as (y & Hy).
  apply fleb_rank. exists y, x. repeat split; try assumption.
  intros Hgt. enough (fltb a b = true) by congruence.
  apply fltb_rank. exists x, y. repeat split; try assumption.
  pose proof (lex3_spec y x) as F1. pose proof (lex3_spec x y) as F2.
  rewrite Hgt in F1.
  destruct x as [[x1 x2] x3], y as [[y1 y2] y3]. cbn beta iota in F1, F2.
  destruct (lex3 (x1, x2, x3) (y1, y2, y3)); [exfalso; lia | reflexivity | exfalso; lia].
Qed.

Lemma fleb_trans (a b c : float) :
  fleb a b = true -> fleb b c = true -> fleb a c = true.
Proof.
  rewrite !fleb_rank.
  intros (x & y & Hx & Hy & H1) (y' & z & Hy' & Hz & H2).
  rewrite Hy in Hy'. injection Hy' as <-.
  exists x, z. repeat split; try assumption.
  intros H3.
  pose proof (lex3_spec x y) as F1. pose proof (lex3_spec y z) as F2.
  pose proof (lex3_spec x z) as F3. rewrite H3 in F3.
  destruct x as [[x1 x2] x3], y as [[y1 y2] y3], z as [[z1 z2] z3].
  cbn beta iota in F1, F2, F3.
  destruct (lex3 (x1, x2, x3) (y1, y2, y3)); [| |congruence];
    (destruct (lex3 (y1, y2, y3) (z1, z2, z3)); [| |congruence]); lia.
Qed.

Lemma fltb_fleb (a b : float) : fltb a b = true -> fleb a b = true.
Proof.
  rewrite fltb_rank, fleb_rank. intros (x & y & Hx & Hy & H).
  exists x, y. repeat split; try assumption. congruence.
Qed.

Lemma feqb_not_fltb (a b : float) : feqb a b = true -> fltb a b = false.
Proof.
  intros H. destruct (fltb a b) eqn:E; [|reflexivity].
  apply feqb_rank in H as (x & y & Hx & Hy & H).
  apply fltb_rank in E as (x' & y' & Hx' & Hy' & E). congruence.
Qed.

(** Floats equal to the same float are not less than one another. *)
Lemma feqb_same_not_fltb (k a b : float) :
  feqb k a = true -> feqb k b = true -> feqb a b = true.
Proof.
  rewrite !feqb_rank.
  intros (z & x & Hz & Hx & H1) (z' & y & Hz' & Hy & H2).
  rewrite Hz in Hz'. injection Hz' as <-.
  exists x, y. repeat split; try assumption.
  pose proof (lex3_spec z x) as F1. pose proof (lex3_spec z y) as F2.
  pose proof (lex3_spec x y) as F3. rewrite H1 in F1. rewrite H2 in F2.
  destruct x as [[x1 x2] x3], y as [[y1 y2] y3], z as [[z1 z2] z3].
  cbn beta iota in F1, F2, F3.
  destruct (lex3 (x1, x2, x3) (y1, y2, y3)); [reflexivity | exfalso; lia | exfalso; lia].
Qed.

(* ================================================================= *)
(** * The sort *)

Lemma eqb_int (m n : Z) : eqb (VInt m) (VInt n) = (m =? n).
Proof.
  cbn. destruct (Z.compare_spec m n), (Z.eqb_spec m n); try reflexivity; lia.
Qed.

Lemma ltb_int (m n : Z) : ltb (VInt m) (VInt n) = Ok (m <? n).
Proof.
  cbn. unfold Z.ltb. now destruct (m ?= n).
Qed.

(** The comparison of the sort on two entries of the data model. *)
Lemma tuple_ltb_ranked (a b : entry) (m n : Z) :
  wins a = VInt m -> wins b = VInt n ->
  tuple_ltb (sort_key a) (sort_key b)
  = Ok ((m <? n) || ((m =? n) && fltb (fpts a) (fpts b))).
Proof.
  intros Ha Hb. unfold tuple_ltb, sort_key. cbn [fst snd].
  rewrite Ha, Hb, eqb_int, ltb_int.
  destruct (Z.eqb_spec m n) as [->|Hne]; cbn [negb].
  - rewrite Z.ltb_irrefl. cbn [orb andb].
    destruct (feqb (fpts a) (fpts b)) eqn:E; cbn [negb]; [|reflexivity].
    now rewrite (feqb_not_fltb _ _ E).
  - cbn [andb]. now rewrite orb_false_r.
Qed.

Lemma same_key_not_less (k x y : entry) :
  ranked k -> ranked x -> ranked y ->
  same_key k x = true -> same_key k y = true ->
  tuple_ltb (sort_key x) (sort_key y) = Ok false.
Proof.
  intros [[c Hk] _] [[m Hx] _] [[n Hy] _]. unfold same_key.
  rewrite Hk, Hx, Hy, !eqb_int, !andb_true_iff, !Z.eqb_eq.
  intros [<- Fx] [<- Fy].
  rewrite (tuple_ltb_ranked x y c c Hx Hy), Z.ltb_irrefl, Z.eqb_refl.
  cbn [orb andb]. f_equal.
  apply feqb_not_fltb, (feqb_same_not_fltb (fpts k)); assumption.
Qed.

Lemma precedes_trans (a b c : entry) :
  precedes a b -> precedes b c -> precedes a c.
Proof.
  intros (m & n & Ha & Hb & H1) (n' & p & Hb' & Hc & H2).
  rewrite Hb in Hb'. injection Hb' as <-.
  exists m, p. repeat split; try assumption.
  destruct H1 as [H1|[-> F1]], H2 as [H2|[-> F2]]; try (left; lia).
  right. split; [reflexivity|]. exact (fleb_trans _ _ _ F2 F1).
Qed.

(** Inserting into a sorted list keeps it sorted, and keeps the order of
    the entries of every key. *)
Lemma insert_descending_sorted (x : entry) :
  forall sorted,
    ranked x -> Forall ranked sorted -> StronglySorted precedes sorted ->
    exists out,
      insert_descending sort_key x sorted = Ok out
      /\ StronglySorted precedes out
      /\ forall k, ranked k ->
           filter (same_key k) out = filter (same_key k) (x :: sorted).
Proof.
  intros sorted Hx. induction sorted as [|y rest IH]; intros Hall Hs.
  - exists [x]. repeat split; repeat constructor.
  - inversion Hall as [|? ? Hy Hrest]; subst.
    inversion Hs as [|? ? Hs' Hfirst]; subst.
    destruct Hx as [[m Hm] Nx] eqn:Ex. destruct Hy as [[n Hn] Ny] eqn:Ey.
    cbn [insert_descending].
    rewrite (tuple_ltb_ranked x y m n Hm Hn). cbn [bind].
    destruct ((m <? n) || ((m =? n) && fltb (fpts x) (fpts y))) eqn:Hless.
    + destruct (IH Hrest Hs') as (out & Hout & Hsorted & Hstable).
      rewrite Hout. cbn [bind]. exists (y :: out). repeat split.
      * constructor; [assumption|].
        apply (Permutation_Forall (insert_descending_perm _ _ _ _ Hout)).
        constructor; [|assumption].
        exists n, m. repeat split; try assumption.
        apply orb_true_iff in Hless as [H|H]; [left; lia|].
        apply andb_true_iff in H as [H1 H2]. right. split; [lia|].
        now apply fltb_fleb.
      * intros k Hk. cbn [filter]. rewrite (Hstable k Hk). cbn [filter].
        destruct (same_key k y) eqn:Ky; [|reflexivity].
        destruct (same_key k x) eqn:Kx; [|reflexivity].
        pose proof (same_key_not_less k x y Hk
                      (conj (ex_intro _ m Hm) Nx) (conj (ex_intro _ n Hn) Ny) Kx Ky) as E.
        rewrite (tuple_ltb_ranked x y m n Hm Hn), Hless in E. discriminate.
    + exists (x :: y :: rest). repeat split.
      assert (Pxy : precedes x y).
      { exists m, n. repeat split; try assumption.
        apply orb_false_iff in Hless as [H1 H2].
        destruct (Z.eqb_spec m n) as [->|Hne]; [|left; lia].
        right. split; [reflexivity|]. now apply fleb_total. }
      constructor; [assumption|]. constructor; [assumption|].
      eapply Forall_impl; [|exact Hfirst].
      intros z. now apply precedes_trans.
Qed.

(** The sort of line 71 on entries of the data model: it returns, the
    result is a rearrangement in descending order, and entries of one key
    stay in the order they came in. *)
Lemma sort_reverse_sorted (es : list entry) :
  Forall ranked es ->
  exists out,
    sort_reverse sort_key es = Ok out
    /\ Permutation es out
    /\ StronglySorted precedes out
    /\ forall k, ranked k -> filter (same_key k) out = filter (same_key k) es.
Proof.
  induction es as [|x rest IH]; intros Hall.
  - exists []. repeat split; constructor.
  - inversion Hall as [|? ? Hx Hrest]; subst.
    destruct (IH Hrest) as (sorted & Hsort & Hperm & Hsorted & Hstable).
    destruct (insert_descending_sorted x sorted Hx
                (Permutation_Forall Hperm Hrest) Hsorted)
      as (out & Hout & Hout_sorted & Hout_stable).
    exists out. cbn [sort_reverse]. rewrite Hsort. cbn [bind].
    repeat split; try assumption.
    + rewrite <- (insert_descending_perm _ _ _ _ Hout). now constructor.
    + intros k Hk. rewrite (Hout_stable k Hk). cbn [filter].
      now rewrite (Hstable k Hk).
Qed.

(** C2, as the code has it.  On entries whose wins are integers and whose
    scores are numbers, the sort of line 71 returns the entries rearranged
    in descending order of wins, then of score, with the entries of equal
    key in the order they had; the standings of a report are that sort of
    the entries the loop made, in roster order; and the teams A (10 wins,
    1000.5), B (10 wins, 1200.0) and C (9 wins, 2000.0) come out as B, A, C
    from each of their six orders. *)
Theorem standings_sorted :
  (forall es,
     Forall ranked es ->
     exists out,
       sort_reverse sort_key es = Ok out
       /\ Permutation es out
       /\ StronglySorted precedes out
       /\ forall k, ranked k -> filter (same_key k) out = filter (same_key k) es)
  /\ (forall w league_id rep,
        result w (fetch_sleeper_data league_id) = Ok (Some rep) ->
        exists user_map rosters rows,
          fetched w league_id user_map rosters
          /\ Forall2 (fun roster row => roster_entry user_map roster = Ok row)
               rosters rows
          /\ sort_reverse sort_key (kept rows) = Ok (standings rep))
  /\ Forall (fun es => sort_reverse sort_key es = Ok [team_B; team_A; team_C])
       [ [team_A; team_B; team_C]; [team_A; team_C; team_B];
         [team_B; team_A; team_C]; [team_B; team_C; team_A];
         [team_C; team_A; team_B]; [team_C; team_B; team_A] ].
Proof.
  split; [exact sort_reverse_sorted|].
  split; [exact fetch_report|].
  repeat constructor.
Qed.

Lemma standings_sorted_witness :
  Forall ranked [team_C; team_A; team_B; team_A]
  /\ exists out,
       sort_reverse sort_key [team_C; team_A; team_B; team_A] = Ok out
       /\ Permutation [team_C; team_A; team_B; team_A] out
       /\ StronglySorted precedes out
       /\ forall k, ranked k ->
            filter (same_key k) out
            = filter (same_key k) [team_C; team_A; team_B; team_A].
Proof.
  assert (H : Forall ranked [team_C; team_A; team_B; team_A])
    by (repeat constructor; eexists; reflexivity).
  split; [exact H|].
  exact (proj1 standings_sorted _ H).
Defined.

(** C2 fails as stated.  With one win each and the scores [5], ["nan"] and
    [7], every comparison with the NaN is false, the sort leaves the three
    entries as they came, and the team with 5 points stands before the team
    with 7.  With the wins [3] and ["x"] the sort raises [TypeError] and no
    list is returned. *)
Lemma unordered_keys_break_the_order :
  (let w := serving LEAGUE_ID dynasty
              (Body (VList [ roster "u1" (VInt 1) (VInt 5);
                             roster "u2" (VInt 1) (VStr "nan");
                             roster "u3" (VInt 1) (VInt 7) ]))
              three_users (Text "") in
   exists a b c,
     result w (fetch_sleeper_data LEAGUE_ID)
     = Ok (Some {| league_name := VStr "Dynasty"; standings := [a; b; c] |})
     /\ (owner_name a, wins a, to_float (VInt 5)) = (VStr "Ann", VInt 1, Ok (fpts a))
     /\ (owner_name b, wins b, fpts b) = (VStr "Bob", VInt 1, S754_nan)
     /\ (owner_name c, wins c, to_float (VInt 7)) = (VStr "Cyd", VInt 1, Ok (fpts c))
     /\ fltb (fpts a) (fpts c) = true
     /\ ~ StronglySorted precedes [a; b; c])
  /\ (let w := serving LEAGUE_ID dynasty
                 (Body (VList [ roster "u1" (VInt 3) (VInt 5);
                                roster "u2" (VStr "x") (VInt 7) ]))
                 three_users (Text "") in
      result w (fetch_sleeper_data LEAGUE_ID) = Raise TypeError).
Proof.
  split; [|vm_compute; reflexivity].
  cbv zeta. do 3 eexists.
  split; [vm_compute; reflexivity|].
  repeat (split; [vm_compute; reflexivity|]).
  intros H. inversion H as [|? ? _ Hfirst]; subst.
  inversion Hfirst as [|? ? _ Hac]; subst.
  inversion Hac as [|? ? (m & n & Hm & Hn & Hlt) _]; subst.
  cbn [wins fpts] in Hm, Hn, Hlt. injection Hm as <-. injection Hn as <-.
  destruct Hlt as [Hlt|[_ Hlt]]; [lia | vm_compute in Hlt; discriminate].
Qed.

(* ================================================================= *)
(** * Returning and raising *)

Lemma build_user_map_returns (users : list value) :
  forallb well_formed_user users = true ->
  forall user_map, exists user_map', build_user_map users user_map = Ok user_map'.
Proof.
  induction users as [|user rest IH]; cbn [forallb build_user_map]; intros H user_map.
  - eexists; reflexivity.
  - apply andb_true_iff in H as [Hu Hrest].
    destruct user as [| | | | |?|fields]; try discriminate. cbn in Hu.
    unfold getitem.
    destruct (lookup "user_id" fields) as [user_id|]; [|discriminate].
    destruct (lookup "display_name" fields) as [display_name|]; [|discriminate].
    cbn [bind]. unfold setitem. rewrite Hu. cbn [bind]. apply IH, Hrest.
Qed.

(** The three ways [float()] fails. *)
Lemma to_float_raises (v : value) (e : exn) :
  to_float v = Raise e -> e = ValueError \/ e = TypeError \/ e = OverflowError.
Proof.
  destruct v as [|b|n|f|s|items|fields]; cbn [to_float];
    try discriminate; try (intros [= <-]; auto).
  - unfold float_of_int. destruct (round_float n 0 false); try discriminate.
    intros [= <-]. auto.
  - unfold float_of_str.
    destruct (negb _); [intros [= <-]; auto|].
    destruct (read_sign _) as [negative body].
    destruct (_ || _); [discriminate|].
    destruct (is_word _ _); [discriminate|].
    destruct (read_numeral _ _); [discriminate | intros [= <-]; auto].
Qed.

Lemma fpts_of_returns (a b : value) :
  in_float_range a = true -> in_float_range b = true ->
  exists f, fpts_of a b = Ok f.
Proof.
  unfold in_float_range, fpts_of. intros Ha Hb.
  destruct (to_float a) as [x|e] eqn:Ea.
  - destruct (to_float b) as [y|e] eqn:Eb; [eexists; reflexivity|].
    destruct (to_float_raises b e Eb) as [-> | [-> | ->]];
      [eexists; reflexivity | eexists; reflexivity | discriminate].
  - destruct (to_float_raises a e Ea) as [-> | [-> | ->]];
      [eexists; reflexivity | eexists; reflexivity | discriminate].
Qed.

(** On a well-formed roster the loop body returns, and an entry it makes
    has an integer for its wins. *)
Lemma roster_entry_returns (user_map : dict) (roster : value) :
  well_formed_roster roster = true ->
  exists row,
    roster_entry user_map roster = Ok row
    /\ forall e, row = Some e -> exists n, wins e = VInt n.
Proof.
  unfold well_formed_roster, roster_entry, setting.
  destruct roster as [| | | | |?|fields]; try discriminate.
  rewrite !andb_true_iff. intros [[[[[Ho Hm] Hs] Hw] Hf] Hd].
  rewrite get_dict. cbn [bind].
  destruct (lookup "owner_id" fields) as [owner_id|]; cbn [truthy];
    [|eexists; split; [reflexivity | discriminate]].
  destruct (truthy owner_id); cbn [negb orb] in Ho;
    [|eexists; split; [reflexivity | discriminate]].
  unfold contains, dict_getitem. rewrite Ho. cbn [bind].
  destruct (dict_find owner_id user_map) as [name|];
    [|eexists; split; [reflexivity | discriminate]].
  cbn [bind]. rewrite get_dict. cbn [bind].
  destruct (lookup "metadata" fields) as [[| | | | |?|metadata]|]; try discriminate;
    repeat (rewrite get_dict; cbn [bind]);
    (destruct (lookup "settings" fields) as [[| | | | |?|settings]|]; try discriminate);
    repeat (rewrite get_dict; cbn [bind]);
    unfold or_zero in *; cbn [lookup] in *;
    (destruct (fpts_of_returns _ _ Hf Hd) as (x & Hx)); rewrite Hx; cbn [bind];
    (eexists; split; [reflexivity|]); intros e [= <-]; cbn [wins];
    match goal with
    | H : is_int ?v = true |- _ =>
        destruct v; try discriminate; eexists; reflexivity
    end.
Qed.

Lemma collect_returns (user_map : dict) (rosters : list value) :
  forallb well_formed_roster rosters = true ->
  forall acc,
    Forall (fun e => exists n, wins e = VInt n) acc ->
    exists table,
      collect user_map rosters acc = Ok table
      /\ Forall (fun e => exists n, wins e = VInt n) table.
Proof.
  induction rosters as [|roster rest IH]; cbn [forallb collect]; intros H acc Hacc.
  - exists acc. auto.
  - apply andb_true_iff in H as [Hr Hrest].
    destruct (roster_entry_returns user_map roster Hr) as (row & -> & Hrow).
    cbn [bind]. apply IH; [exact Hrest|].
    destruct row as [e|]; [|exact Hacc].
    apply Forall_app. split; [exact Hacc|]. constructor; [|constructor].
    now apply Hrow.
Qed.

(** With integers for the wins no comparison of the sort raises. *)
Lemma sort_reverse_returns (es : list entry) :
  Forall (fun e => exists n, wins e = VInt n) es ->
  exists out, sort_reverse sort_key es = Ok out.
Proof.
  induction es as [|x rest IH]; intros Hall.
  - eexists; reflexivity.
  - inversion Hall as [|? ? [m Hm] Hrest]; subst.
    destruct (IH Hrest) as (sorted & Hs). cbn [sort_reverse]. rewrite Hs.
    cbn [bind].
    pose proof (Permutation_Forall (sort_reverse_perm _ _ _ Hs) Hrest) as Hsorted.
    clear Hs IH Hall Hrest. induction sorted as [|y l IHl].
    + eexists; reflexivity.
    + inversion Hsorted as [|? ? [n Hn] Hl]; subst.
      cbn [insert_descending]. rewrite (tuple_ltb_ranked x y m n Hm Hn).
      cbn [bind]. destruct (_ || _); [|eexists; reflexivity].
      destruct (IHl Hl) as (out & ->). eexists; reflexivity.
Qed.

Lemma build_standings_returns (rosters users : list value) :
  forallb well_formed_user users = true ->
  forallb well_formed_roster rosters = true ->
  exists table, build_standings (VList rosters) (VList users) = Ok table.
Proof.
  intros Hu Hr. unfold build_standings, user_map_of. cbn [iter bind].
  destruct (build_user_map_returns users Hu []) as (user_map & ->). cbn [bind].
  destruct (collect_returns user_map rosters Hr [] (Forall_nil _))
    as (table & -> & Hint).
  cbn [bind]. now apply sort_reverse_returns.
Qed.

(* ================================================================= *)
(** * The faults that can be raised *)

Lemma bind_raise {A B} (m : exc A) (f : A -> exc B) (e : exn) :
  bind m f = Raise e -> m = Raise e \/ exists a, m = Ok a /\ f a = Raise e.
Proof.
  destruct m as [a|e']; cbn; intros H; [right; eauto | left; congruence].
Qed.

(** Induction on a value, with the items of a list and the values of a
    dict as smaller values. *)
Lemma value_induction (P : value -> Prop) :
  P VNone -> (forall b, P (VBool b)) -> (forall n, P (VInt n)) ->
  (forall f, P (VFloat f)) -> (forall s, P (VStr s)) ->
  (forall items, Forall P items -> P (VList items)) ->
  (forall fields, Forall (fun kv => P (snd kv)) fields -> P (VDict fields)) ->
  forall v, P v.
Proof.
  intros HNone HBool HInt HFloat HStr HList HDict.
  fix IH 1. intros [|b|n|f|s|items|fields].
  - exact HNone.
  - apply HBool.
  - apply HInt.
  - apply HFloat.
  - apply HStr.
  - apply HList. induction items as [|x items IHitems]; constructor.
    + apply IH.
    + exact IHitems.
  - apply HDict. induction fields as [|[k v] fields IHfields]; constructor.
    + apply IH.
    + exact IHfields.
Qed.

(** A comparison raises nothing but [TypeError]. *)
Lemma ltb_raises (a : value) :
  forall b e, ltb a b = Raise e -> e = TypeError.
Proof.
  induction a as [|x|n|f|s|items IH|fields IH] using value_induction;
    intros b e; destruct b as [|y|m|g|t|items'|fields']; cbn [ltb];
    try discriminate;
    try (destruct (compare_numbers _ _) as [[[]|]|]; try discriminate;
         intros [= <-]; reflexivity).
  revert items'. induction IH as [|x items Hx _ IHitems]; intros [|y items'];
    try discriminate.
  destruct (eqb x y); [apply IHitems | apply Hx].
Qed.

Lemma tuple_ltb_raises (a b : value * float) (e : exn) :
  tuple_ltb a b = Raise e -> e = TypeError.
Proof.
  unfold tuple_ltb. destruct (negb (eqb (fst a) (fst b))); [apply ltb_raises|].
  destruct (negb (feqb (snd a) (snd b))); discriminate.
Qed.

Lemma sort_reverse_raises {A} (key : A -> value * float) (items : list A) (e : exn) :
  sort_reverse key items = Raise e -> e = TypeError.
Proof.
  induction items as [|x rest IH]; cbn [sort_reverse]; [discriminate|].
  intros H. apply bind_raise in H as [H|(sorted & _ & H)]; [now apply IH|].
  clear IH. induction sorted as [|y l IHl]; cbn [insert_descending] in H;
    [discriminate|].
  apply bind_raise in H as [H|(less & _ & H)]; [now apply tuple_ltb_raises in H|].
  destruct less; [|discriminate].
  apply bind_raise in H as [H|(rest' & _ & H)]; [now apply IHl | discriminate].
Qed.

Lemma get_raises (obj : value) (key : string) (default : value) (e : exn) :
  get obj key default = Raise e -> e = AttributeError.
Proof.
  destruct obj; cbn [get]; try (intros [= <-]; reflexivity).
  destruct (lookup key fields); discriminate.
Qed.

Lemma getitem_raises (obj : value) (key : string) (e : exn) :
  getitem obj key = Raise e -> e = KeyError \/ e = TypeError.
Proof.
  destruct obj; cbn [getitem]; try (intros [= <-]; auto).
  destruct (lookup key fields); [discriminate | intros [= <-]; auto].
Qed.

Lemma iter_raises (obj : value) (e : exn) : iter obj = Raise e -> e = TypeError.
Proof.
  destruct obj; cbn [iter]; try discriminate; intros [= <-]; reflexivity.
Qed.

Lemma fpts_of_raises (a b : value) (e : exn) :
  fpts_of a b = Raise e -> e = OverflowError.
Proof.
  unfold fpts_of. destruct (to_float a) as [x|ea] eqn:Ea.
  - destruct (to_float b) as [y|eb] eqn:Eb; [discriminate|].
    destruct (to_float_raises b eb Eb) as [-> | [-> | ->]]; cbn;
      try discriminate. intros [= <-]. reflexivity.
  - destruct (to_float_raises a ea Ea) as [-> | [-> | ->]]; cbn;
      try discriminate. intros [= <-]. reflexivity.
Qed.

Ltac fault :=
  unfold interpreter_fault;
  match goal with
  | H : get _ _ _ = Raise _ |- _ => apply get_raises in H; subst; auto
  | H : getitem _ _ = Raise _ |- _ => apply getitem_raises in H as [-> | ->]; auto
  | H : iter _ = Raise _ |- _ => apply iter_raises in H; subst; auto
  | H : fpts_of _ _ = Raise _ |- _ => apply fpts_of_raises in H; subst; auto 6
  | H : sort_reverse _ _ = Raise _ |- _ =>
      apply sort_reverse_raises in H; subst; auto
  end.

Lemma build_user_map_raises (users : list value) :
  forall user_map e,
    build_user_map users user_map = Raise e -> interpreter_fault e.
Proof.
  induction users as [|user rest IH]; cbn [build_user_map]; intros user_map e H;
    [discriminate|].
  apply bind_raise in H as [H|(user_id & _ & H)]; [fault|].
  apply bind_raise in H as [H|(display_name & _ & H)]; [fault|].
  apply bind_raise in H as [H|(user_map' & _ & H)]; [|now apply IH in H].
  unfold setitem in H. destruct (hashable user_id); [discriminate|].
  injection H as <-. unfold interpreter_fault. auto.
Qed.

Lemma roster_entry_raises (user_map : dict) (roster : value) (e : exn) :
  roster_entry user_map roster = Raise e -> interpreter_fault e.
Proof.
  unfold roster_entry. intros H.
  apply bind_raise in H as [H|(owner_id & _ & H)]; [fault|].
  destruct (truthy owner_id); [|discriminate].
  apply bind_raise in H as [H|(known & _ & H)].
  { unfold contains in H. destruct (hashable owner_id); [discriminate|].
    injection H as <-. unfold interpreter_fault. auto. }
  destruct known; [|discriminate].
  apply bind_raise in H as [H|(owner_name & _ & H)].
  { unfold dict_getitem in H. unfold interpreter_fault.
    destruct (hashable owner_id); [destruct (dict_find _ _)|];
      try discriminate; injection H as <-; auto. }
  repeat (apply bind_raise in H as [H|(? & _ & H)]; [fault|]).
  discriminate.
Qed.

Lemma collect_raises (user_map : dict) (rosters : list value) :
  forall acc e, collect user_map rosters acc = Raise e -> interpreter_fault e.
Proof.
  induction rosters as [|roster rest IH]; cbn [collect]; intros acc e H;
    [discriminate|].
  apply bind_raise in H as [H|(row & _ & H)];
    [now apply roster_entry_raises in H | now apply IH in H].
Qed.

Lemma build_standings_raises (rosters users : value) (e : exn) :
  build_standings rosters users = Raise e -> interpreter_fault e.
Proof.
  unfold build_standings, user_map_of. intros H.
  apply bind_raise in H as [H|(user_map & _ & H)].
  { apply bind_raise in H as [H|(l & _ & H)];
      [fault | now apply build_user_map_raises in H]. }
  apply bind_raise in H as [H|(l & _ & H)]; [fault|].
  apply bind_raise in H as [H|(table & _ & H)];
    [now apply collect_raises in H | fault].
Qed.




(* ================================================================= *)
(** * The join of rosters and users *)

(** A row of the loop is an entry exactly for the rosters of known owners. *)
Lemma roster_entry_known (user_map : dict) (roster : value) (row : option entry) :
  roster_entry user_map roster = Ok row ->
  match row with
  | Some _ => known_owner user_map roster = true
  | None => known_owner user_map roster = false
  end.
Proof.
  destruct row as [e|].
  - intros H. apply roster_entry_inv in H as (owner_id & Ho & Ht & Hc & Hf & _).
    unfold known_owner. rewrite Ho, Ht, Hf. unfold contains in Hc.
    destruct (hashable owner_id); [reflexivity | discriminate].
  - unfold roster_entry, known_owner, owner_id_of.
    destruct roster as [| | | | |?|fields]; try discriminate.
    rewrite get_dict. cbn [bind].
    destruct (lookup "owner_id" fields) as [owner_id|]; [|reflexivity].
    destruct (truthy owner_id); [|reflexivity].
    unfold contains. destruct (hashable owner_id); [|discriminate].
    cbn [bind andb].
    destruct (dict_find owner_id user_map) as [name|] eqn:Ef; [|reflexivity].
    unfold dict_getitem.
    destruct (hashable owner_id); rewrite ?Ef; cbn [bind]; [|discriminate].
    intros H.
    repeat match type of H with
    | bind ?m _ = _ => destruct m; cbn [bind] in H; try discriminate
    end.
Qed.

Lemma kept_length (user_map : dict) (rosters : list value) (rows : list (option entry)) :
  Forall2 (fun roster row => roster_entry user_map roster = Ok row) rosters rows ->
  List.length (kept rows) = List.length (filter (known_owner user_map) rosters).
Proof.
  induction 1 as [|roster row rosters rows Hrow F IH]; [reflexivity|].
  apply roster_entry_known in Hrow. cbn [filter].
  destruct row as [e|]; rewrite Hrow.
  - change (kept (Some e :: rows)) with (e :: kept rows).
    cbn [List.length]. now rewrite IH.
  - exact IH.
Qed.

(** C4.  A roster whose [owner_id] is absent, empty, or a value that can
    key a dict and is not a key of the user index yields no entry and no
    error; an [owner_id] that is a list or an object, and not empty, makes
    the test of line 44 raise [TypeError].  A roster whose owner is known
    never yields no entry, and yields one when it has the shape of the data
    model.  For documents of that shape, and in every fetch that returns a
    report, the standings hold one entry for each roster whose owner is
    known and none for the others. *)
Theorem owner_filter :
  (forall user_map fields,
     owner_id_of (VDict fields) = None
     \/ (exists owner_id,
           owner_id_of (VDict fields) = Some owner_id
           /\ (truthy owner_id = false
               \/ hashable owner_id = true
                  /\ dict_find owner_id user_map = None)) ->
     roster_entry user_map (VDict fields) = Ok None)
  /\ (forall user_map fields owner_id,
        owner_id_of (VDict fields) = Some owner_id ->
        truthy owner_id = true ->
        hashable owner_id = false ->
        roster_entry user_map (VDict fields) = Raise TypeError)
  /\ (forall user_map roster,
        known_owner user_map roster = true ->
        roster_entry user_map roster <> Ok None
        /\ (well_formed_roster roster = true ->
            exists e, roster_entry user_map roster = Ok (Some e)))
  /\ (forall rosters users,
        forallb well_formed_user users = true ->
        forallb well_formed_roster rosters = true ->
        exists user_map table,
          user_map_of (VList users) = Ok user_map
          /\ build_standings (VList rosters) (VList users) = Ok table
          /\ List.length table
             = List.length (filter (known_owner user_map) rosters))
  /\ (forall w league_id rep,
        result w (fetch_sleeper_data league_id) = Ok (Some rep) ->
        exists user_map rosters rows,
          fetched w league_id user_map rosters
          /\ Forall2 (fun roster row =>
                        roster_entry user_map roster = Ok row
                        /\ match row with
                           | Some _ => known_owner user_map roster = true
                           | None => known_owner user_map roster = false
                           end) rosters rows
          /\ Permutation (kept rows) (standings rep)
          /\ List.length (standings rep)
             = List.length (filter (known_owner user_map) rosters)).
Proof.
  split; [|split; [|split; [|split]]].
  - intros user_map fields H. unfold roster_entry, owner_id_of in *.
    rewrite get_dict. cbn [bind].
    destruct H as [->|(owner_id & -> & [Ht|[Hh Hf]])]; [reflexivity| |].
    + now rewrite Ht.
    + destruct (truthy owner_id); [|reflexivity].
      unfold contains. now rewrite Hh, Hf.
  - intros user_map fields owner_id Ho Ht Hh. unfold roster_entry, owner_id_of in *.
    rewrite get_dict, Ho. cbn [bind]. rewrite Ht. unfold contains.
    now rewrite Hh.
  - intros user_map roster Hk. split.
    + intros H. apply roster_entry_known in H. congruence.
    + intros Hw.
      destruct (roster_entry_returns user_map roster Hw) as ([e|] & Hrow & _);
        [now exists e|].
      apply roster_entry_known in Hrow. congruence.
  - intros rosters users Hu Hr.
    destruct (build_standings_returns rosters users Hu Hr) as (table & Eb).
    pose proof Eb as Hb. unfold build_standings in Hb.
    apply bind_ok in Hb as (user_map & Hum & Hb).
    apply bind_ok in Hb as (rosters' & Hit & Hb).
    cbn [iter] in Hit. injection Hit as <-.
    apply bind_ok in Hb as (found & Hc & Hs).
    apply collect_rows in Hc as (rows & F & ->). cbn [app] in Hs.
    exists user_map, table. split; [exact Hum|]. split; [exact Eb|].
    apply sort_reverse_perm in Hs. rewrite <- (Permutation_length Hs).
    now apply kept_length.
  - intros w league_id rep H.
    apply fetch_report in H as (user_map & rosters & rows & Hf & F & Hs).
    apply sort_reverse_perm in Hs.
    exists user_map, rosters, rows. repeat split; try assumption.
    + eapply Forall2_impl; [|exact F]. intros roster row Hrow.
      split; [exact Hrow | now apply roster_entry_known].
    + rewrite <- (Permutation_length Hs). now apply kept_length.
Qed.

Lemma owner_filter_witness :
  let w := serving LEAGUE_ID dynasty
             (Body (VList [roster_unowned; roster_of_ann; roster_of_stranger]))
             ann_and_bob (Text "") in
  let user_map := [(VStr "u1", VStr "Ann")] in
  (exists e,
     result w (fetch_sleeper_data LEAGUE_ID)
     = Ok (Some {| league_name := VStr "Dynasty"; standings := [e] |}))
  /\ roster_entry [] roster_unowned = Ok None
  /\ roster_entry user_map roster_of_stranger = Ok None
  /\ roster_entry user_map roster_with_list_owner = Raise TypeError
  /\ (exists e, roster_entry user_map roster_of_ann = Ok (Some e))
  /\ exists user_map' table,
       user_map_of (VList [user "u1" "Ann"; user "u2" "Bob"]) = Ok user_map'
       /\ build_standings
            (VList [roster_unowned; roster_of_ann; roster_of_stranger])
            (VList [user "u1" "Ann"; user "u2" "Bob"]) = Ok table
       /\ List.length table
          = List.length (filter (known_owner user_map')
                           [roster_unowned; roster_of_ann; roster_of_stranger]).
Proof.
  cbv zeta. split; [eexists; vm_compute; reflexivity|].
  destruct owner_filter as (Hskip & Hraise & Hknown & Htable & _).
  split; [|split; [|split; [|split]]].
  - apply Hskip. right. exists VNone. split; [reflexivity|].
    left. reflexivity.
  - apply Hskip. right. exists (VStr "u9"). split; [reflexivity|].
    right. split; reflexivity.
  - apply (Hraise _ _ (VList [VStr "u1"])); reflexivity.
  - apply (Hknown [(VStr "u1", VStr "Ann")] roster_of_ann); reflexivity.
  - apply Htable; reflexivity.
Defined.

(** C4 fails as stated.  The list [["u1"]] is not a key of the user index,
    and for a roster that has it as its [owner_id] the test
    [owner_id in user_map] of line 44 raises [TypeError]: the roster is not
    skipped, the fetch raises.  And a roster of Ann, a known owner, whose
    [settings] is text gives no entry: line 49 raises [AttributeError]. *)
Lemma an_owner_id_may_raise :
  dict_find (VList [VStr "u1"]) [(VStr "u1", VStr "Ann"); (VStr "u2", VStr "Bob")]
  = None
  /\ roster_entry [(VStr "u1", VStr "Ann"); (VStr "u2", VStr "Bob")]
       roster_with_list_owner = Raise TypeError
  /\ (let w := serving LEAGUE_ID dynasty
                 (Body (VList [roster_of_ann; roster_with_list_owner]))
                 ann_and_bob (Text "") in
      result w (fetch_sleeper_data LEAGUE_ID) = Raise TypeError)
  /\ known_owner [(VStr "u1", VStr "Ann"); (VStr "u2", VStr "Bob")]
       roster_with_text_settings = true
  /\ roster_entry [(VStr "u1", VStr "Ann"); (VStr "u2", VStr "Bob")]
       roster_with_text_settings = Raise AttributeError
  /\ (let w := serving LEAGUE_ID dynasty
                 (Body (VList [roster_of_ann; roster_with_text_settings]))
                 ann_and_bob (Text "") in
      result w (fetch_sleeper_data LEAGUE_ID) = Raise AttributeError).
Proof.
  repeat split; vm_compute; reflexivity.
Qed.

(* ================================================================= *)
(** * The fields of an entry *)

(** The owner and the team name of an entry of the standings, traced back
    to the roster it was made from. *)
Lemma entry_names (w : world) (league_id : string) (rep : report) (e : entry) :
  result w (fetch_sleeper_data league_id) = Ok (Some rep) ->
  In e (standings rep) ->
  exists user_map roster owner_id,
    made_from w league_id user_map roster e
    /\ owner_id_of roster = Some owner_id
    /\ dict_find owner_id user_map = Some (owner_name e)
    /\ team_name e = match metadata_team_name roster with
                     | Some v => v
                     | None => owner_name e
                     end.
Proof.
  intros H Hin.
  destruct (standing_entry_made w league_id rep e H Hin) as (user_map & roster & Hm).
  pose proof Hm as (rosters & _ & _ & He).
  apply roster_entry_inv in He as (owner_id & Ho & _ & _ & Hf & Ht & _).
  exists user_map, roster, owner_id. auto.
Qed.

(** X13.  For an entry of the standings of a returned report, made from a
    roster whose owner is in the user index: the owner name is the display
    name the index holds for the roster's [owner_id]; the team name is that
    display name when the roster has no [metadata.team_name], and the value
    of [metadata.team_name] when it has one. *)
Theorem team_name_fallback (w : world) (league_id : string) (rep : report)
    (e : entry) :
  result w (fetch_sleeper_data league_id) = Ok (Some rep) ->
  In e (standings rep) ->
  exists user_map roster owner_id,
    made_from w league_id user_map roster e
    /\ owner_id_of roster = Some owner_id
    /\ dict_find owner_id user_map = Some (owner_name e)
    /\ (metadata_team_name roster = None -> team_name e = owner_name e)
    /\ (forall v, metadata_team_name roster = Some v -> team_name e = v).
Proof.
  intros H Hin.
  destruct (entry_names w league_id rep e H Hin)
    as (user_map & roster & owner_id & Hm & Ho & Hf & Ht).
  exists user_map, roster, owner_id. repeat split; try assumption.
  - intros Hnone. now rewrite Hnone in Ht.
  - intros v Hv. now rewrite Hv in Ht.
Qed.

Lemma team_name_fallback_witness :
  let w := serving LEAGUE_ID dynasty
             (Body (VList [roster_of_ann; roster_named "u2" (VStr "Bombers")]))
             ann_and_bob (Text "") in
  let e := {| owner_name := VStr "Ann"; team_name := VStr "Ann";
              wins := VInt 5; losses := VInt 9; ties := VInt 0;
              fpts := decimal_to_float false 161778 (-2) |} in
  let rep := {| league_name := VStr "Dynasty";
                standings := [e; plain_entry (VStr "Bob") (VStr "Bombers")] |} in
  result w (fetch_sleeper_data LEAGUE_ID) = Ok (Some rep)
  /\ exists user_map roster owner_id,
       made_from w LEAGUE_ID user_map roster e
       /\ owner_id_of roster = Some owner_id
       /\ dict_find owner_id user_map = Some (owner_name e)
       /\ (metadata_team_name roster = None -> team_name e = owner_name e)
       /\ (forall v, metadata_team_name roster = Some v -> team_name e = v).
Proof.
  intros w e rep.
  assert (H : result w (fetch_sleeper_data LEAGUE_ID) = Ok (Some rep))
    by (vm_compute; reflexivity).
  split; [exact H|].
  apply (team_name_fallback w LEAGUE_ID rep e H). now left.
Defined.

(** C6.  The fallback of line 46 is lost on a roster of a known owner
    whose [metadata] is [null].  The roster has no [metadata.team_name], and
    it is included; but [roster.get('metadata', {})] returns [None], its
    default standing in for an absent key only, and [.get] on [None] raises
    [AttributeError], which goes through the fetch.  The same roster without
    the key [metadata] gets the display name of its owner. *)
Theorem null_metadata_defeats_the_fallback :
  let user_map := [(VStr "u1", VStr "Ann"); (VStr "u2", VStr "Bob")] in
  user_map_of (VList [user "u1" "Ann"; user "u2" "Bob"]) = Ok user_map
  /\ known_owner user_map roster_with_null_metadata = true
  /\ metadata_team_name roster_with_null_metadata = None
  /\ roster_entry user_map roster_with_null_metadata = Raise AttributeError
  /\ (let w := serving LEAGUE_ID dynasty
                 (Body (VList [roster_with_null_metadata])) ann_and_bob
                 (Text "") in
      result w (fetch_sleeper_data LEAGUE_ID) = Raise AttributeError)
  /\ (exists e,
        roster_entry user_map (roster "u1" (VInt 5) (VInt 1617)) = Ok (Some e)
        /\ team_name e = VStr "Ann")
  /\ exists e,
       roster_entry user_map
         (VDict [ ("owner_id", VStr "u1"); ("metadata", VDict []);
                  ("settings", VDict [("wins", VInt 5); ("fpts", VInt 1617)]) ])
       = Ok (Some e)
       /\ team_name e = VStr "Ann".
Proof.
  cbv zeta. repeat split; try (vm_compute; reflexivity);
    eexists; split; vm_compute; reflexivity.
Qed.

(** C9.  The fallback is for an absent key only: when [metadata] holds the
    key [team_name], the entry's team name is its value, also when the
    value is [null] or the empty string.  So a roster of Ann whose team
    name is [null] gives the entry its team name [None], not ["Ann"]. *)
Theorem present_team_name_is_kept :
  (forall w league_id rep e,
     result w (fetch_sleeper_data league_id) = Ok (Some rep) ->
     In e (standings rep) ->
     exists user_map roster,
       made_from w league_id user_map roster e
       /\ (metadata_team_name roster = Some VNone -> team_name e = VNone)
       /\ (metadata_team_name roster = Some (VStr "") -> team_name e = VStr "")
       /\ (forall v, metadata_team_name roster = Some v -> team_name e = v))
  /\ (let w := serving LEAGUE_ID dynasty
                 (Body (VList [roster_named "u1" VNone; roster_named "u2" (VStr "")]))
                 ann_and_bob (Text "") in
      result w (fetch_sleeper_data LEAGUE_ID)
      = Ok (Some {| league_name := VStr "Dynasty";
                    standings := [ plain_entry (VStr "Ann") VNone;
                                   plain_entry (VStr "Bob") (VStr "") ] |})).
Proof.
  split; [|vm_compute; reflexivity].
  intros w league_id rep e H Hin.
  destruct (entry_names w league_id rep e H Hin)
    as (user_map & roster & owner_id & Hm & _ & _ & Ht).
  exists user_map, roster. repeat split; try assumption;
    intros; match goal with E : metadata_team_name _ = _ |- _ => now rewrite E in Ht end.
Qed.

Lemma present_team_name_is_kept_witness :
  let w := serving LEAGUE_ID dynasty
             (Body (VList [roster_named "u1" VNone; roster_named "u2" (VStr "")]))
             ann_and_bob (Text "") in
  let e := plain_entry (VStr "Ann") VNone in
  In e [plain_entry (VStr "Ann") VNone; plain_entry (VStr "Bob") (VStr "")]
  /\ exists user_map roster,
       made_from w LEAGUE_ID user_map roster e
       /\ (metadata_team_name roster = Some VNone -> team_name e = VNone)
       /\ (metadata_team_name roster = Some (VStr "") -> team_name e = VStr "")
       /\ (forall v, metadata_team_name roster = Some v -> team_name e = v).
Proof.
  intros w e. split; [now left|].
  refine (proj1 present_team_name_is_kept w LEAGUE_ID _ e
            (proj2 present_team_name_is_kept) _).
  now left.
Defined.

Lemma compare_same (t : string) : String.compare t t = Eq.
Proof.
  pose proof (String.compare_antisym t t) as H.
  destruct (String.compare t t); [reflexivity | discriminate | discriminate].
Qed.

(** The order of two keys whose wins are text: the order of the texts,
    then that of the scores. *)
Lemma tuple_ltb_text (a b : entry) (s t : string) :
  wins a = VStr s -> wins b = VStr t ->
  tuple_ltb (sort_key a) (sort_key b)
  = Ok match String.compare s t with
       | Lt => true
       | Eq => fltb (fpts a) (fpts b)
       | Gt => false
       end.
Proof.
  intros Ha Hb. unfold tuple_ltb, sort_key. cbn [fst snd]. rewrite Ha, Hb.
  change (eqb (VStr s) (VStr t)) with (String.eqb s t).
  change (ltb (VStr s) (VStr t))
    with (Ok match String.compare s t with Lt => true | _ => false end).
  destruct (String.eqb_spec s t) as [->|Hne]; cbn [negb].
  - rewrite compare_same.
    destruct (feqb (fpts a) (fpts b)) eqn:F; cbn [negb]; [|reflexivity].
    now rewrite (feqb_not_fltb _ _ F).
  - destruct (String.compare s t) eqn:E; try reflexivity.
    apply String.compare_eq_iff in E. contradiction.
Qed.

(** C10.  The wins, losses and ties of an entry are the values of the
    roster's settings as they are, [0] standing in for a missing key only.
    The standings are the sort of these entries by the key
    [(wins, fpts)], which holds the wins value itself: two entries whose
    wins are text are ordered as Python orders text.  So the wins ["9"] and
    ["10"] are kept as text and come out ["9"] first from either order of
    the two rosters, where the numbers [9] and [10] come out [10] first. *)
Theorem counts_are_copied :
  (forall w league_id rep e,
     result w (fetch_sleeper_data league_id) = Ok (Some rep) ->
     In e (standings rep) ->
     exists user_map roster,
       made_from w league_id user_map roster e
       /\ wins e = or_zero (setting roster "wins")
       /\ losses e = or_zero (setting roster "losses")
       /\ ties e = or_zero (setting roster "ties")
       /\ sort_key e = (or_zero (setting roster "wins"), fpts e))
  /\ or_zero None = VInt 0
  /\ (forall v, or_zero (Some v) = v)
  /\ (forall w league_id rep,
        result w (fetch_sleeper_data league_id) = Ok (Some rep) ->
        exists user_map rosters rows,
          fetched w league_id user_map rosters
          /\ Forall2 (fun roster row => roster_entry user_map roster = Ok row)
               rosters rows
          /\ sort_reverse sort_key (kept rows) = Ok (standings rep))
  /\ (forall a b s t,
        wins a = VStr s -> wins b = VStr t ->
        tuple_ltb (sort_key a) (sort_key b)
        = Ok match String.compare s t with
             | Lt => true
             | Eq => fltb (fpts a) (fpts b)
             | Gt => false
             end
        /\ sort_reverse sort_key [a; b]
           = Ok match String.compare s t with
                | Lt => [b; a]
                | Eq => if fltb (fpts a) (fpts b) then [b; a] else [a; b]
                | Gt => [a; b]
                end)
  /\ Forall (fun rosters =>
               let w := serving LEAGUE_ID dynasty (Body (VList rosters))
                          ann_and_bob (Text "") in
               exists a b,
                 result w (fetch_sleeper_data LEAGUE_ID)
                 = Ok (Some {| league_name := VStr "Dynasty"; standings := [a; b] |})
                 /\ (owner_name a, wins a) = (VStr "Bob", VStr "9")
                 /\ (owner_name b, wins b) = (VStr "Ann", VStr "10"))
       [ [roster "u1" (VStr "10") (VInt 0); roster "u2" (VStr "9") (VInt 0)];
         [roster "u2" (VStr "9") (VInt 0); roster "u1" (VStr "10") (VInt 0)] ]
  /\ Forall (fun rosters =>
               let w := serving LEAGUE_ID dynasty (Body (VList rosters))
                          ann_and_bob (Text "") in
               exists a b,
                 result w (fetch_sleeper_data LEAGUE_ID)
                 = Ok (Some {| league_name := VStr "Dynasty"; standings := [a; b] |})
                 /\ (owner_name a, wins a) = (VStr "Ann", VInt 10)
                 /\ (owner_name b, wins b) = (VStr "Bob", VInt 9))
       [ [roster "u1" (VInt 10) (VInt 0); roster "u2" (VInt 9) (VInt 0)];
         [roster "u2" (VInt 9) (VInt 0); roster "u1" (VInt 10) (VInt 0)] ].
Proof.
  split; [|split; [reflexivity|split; [reflexivity|split; [|split; [|split]]]]].
  - intros w league_id rep e H Hin.
    destruct (standing_entry_made w league_id rep e H Hin) as (user_map & roster & Hm).
    pose proof Hm as (rosters & _ & _ & He).
    apply roster_entry_inv in He as (owner_id & _ & _ & _ & _ & _ & Hw & Hl & Ht & _).
    exists user_map, roster. repeat split; try assumption.
    unfold sort_key. now rewrite Hw.
  - intros w league_id rep H. now apply fetch_report.
  - intros a b s t Ha Hb. pose proof (tuple_ltb_text a b s t Ha Hb) as Hlt.
    split; [exact Hlt|].
    cbn [sort_reverse insert_descending bind]. rewrite Hlt. cbn [bind].
    destruct (String.compare s t); try reflexivity.
    destruct (fltb (fpts a) (fpts b)); reflexivity.
  - repeat constructor; cbv zeta; do 2 eexists; repeat split;
      vm_compute; reflexivity.
  - repeat constructor; cbv zeta; do 2 eexists; repeat split;
      vm_compute; reflexivity.
Qed.

Lemma counts_are_copied_witness :
  let w := serving LEAGUE_ID dynasty (Body (VList [roster_of_ann])) ann_and_bob
             (Text "") in
  let e := {| owner_name := VStr "Ann"; team_name := VStr "Ann";
              wins := VInt 5; losses := VInt 9; ties := VInt 0;
              fpts := decimal_to_float false 161778 (-2) |} in
  result w (fetch_sleeper_data LEAGUE_ID)
  = Ok (Some {| league_name := VStr "Dynasty"; standings := [e] |})
  /\ exists user_map roster,
       made_from w LEAGUE_ID user_map roster e
       /\ wins e = or_zero (setting roster "wins")
       /\ losses e = or_zero (setting roster "losses")
       /\ ties e = or_zero (setting roster "ties")
       /\ sort_key e = (or_zero (setting roster "wins"), fpts e).
Proof.
  intros w e.
  assert (H : result w (fetch_sleeper_data LEAGUE_ID)
              = Ok (Some {| league_name := VStr "Dynasty"; standings := [e] |}))
    by (vm_compute; reflexivity).
  split; [exact H|].
  apply (proj1 counts_are_copied w LEAGUE_ID _ e H). now left.
Defined.

(* ================================================================= *)
(** * The effects of the fetcher *)

Lemma run_pbind {A B} (w : world) (p : prog A) (f : A -> prog B) :
  run w (pbind p f) =
  match run w p with
  | (t, Ok a) => let '(t', r) := run w (f a) in (t ++ t', r)
  | (t, Raise e) => (t, Raise e)
  end.
Proof.
  induction p as [a|e|line k IH|url k IH|prompt k IH]; cbn [pbind run].
  - now destruct (run w (f a)).
  - reflexivity.
  - rewrite IH. destruct (run w k) as [t [a|e]]; [|reflexivity].
    now destruct (run w (f a)).
  - rewrite IH. destruct (run w (k (http w url))) as [t [a|e]]; [|reflexivity].
    now destruct (run w (f a)).
  - rewrite IH. destruct (run w (k (genai w prompt))) as [t [a|e]]; [|reflexivity].
    now destruct (run w (f a)).
Qed.

(** The run of [fetch_sleeper_data], request by request. *)
Lemma run_fetch (w : world) (league_id : string) :
  run w (fetch_sleeper_data league_id) =
  let banner := Printed ("Fetching data for league ID: " +++ league_id) in
  let league := Requested (league_details_url league_id) in
  let rosters := Requested (rosters_url league_id) in
  let users := Requested (users_url league_id) in
  match http w (league_details_url league_id) with
  | Failed msg => ([banner; league; Printed (failure_line msg)], Ok None)
  | Body league_details =>
      match get league_details "name" (VStr "Your Dynasty League") with
      | Raise e => ([banner; league], Raise AttributeError)
      | Ok name =>
          match http w (rosters_url league_id) with
          | Failed msg =>
              ([banner; league; rosters; Printed (failure_line msg)], Ok None)
          | Body rosters_body =>
              match http w (users_url league_id) with
              | Failed msg =>
                  ([banner; league; rosters; users; Printed (failure_line msg)],
                   Ok None)
              | Body users_body =>
                  ([banner; league; rosters; users],
                   match build_standings rosters_body users_body with
                   | Raise e => Raise e
                   | Ok table =>
                       Ok (Some {| league_name := name; standings := table |})
                   end)
              end
          end
      end
  end.
Proof.
  unfold fetch_sleeper_data, get_json, print, failure_line.
  cbn [pbind try_except run].
  destruct (http w (league_details_url league_id)) as [msg|league_details];
    cbn [pbind try_except run]; [reflexivity|].
  destruct (get league_details "name" _) as [name|e] eqn:En;
    cbn [lift pbind try_except run].
  2: { apply get_raises in En. subst e. reflexivity. }
  destruct (http w (rosters_url league_id)) as [msg|rosters];
    cbn [pbind try_except run]; [reflexivity|].
  destruct (http w (users_url league_id)) as [msg|users];
    cbn [pbind try_except run]; [reflexivity|].
  destruct (build_standings rosters users) as [table|e] eqn:Eb;
    cbn [lift pbind try_except run]; [reflexivity|].
  apply build_standings_raises in Eb.
  destruct Eb as [-> | [-> | [-> | ->]]]; reflexivity.
Qed.

(** X1.  [fetch_sleeper_data] asks for the league first, for the rosters
    only when the league request gave an object, and for the users only
    when the rosters request succeeded too; it never calls the
    text-generation service. *)
Theorem requests_in_order (w : world) (league_id : string) :
  requested (trace w (fetch_sleeper_data league_id))
  = league_details_url league_id
    :: match http w (league_details_url league_id) with
       | Body (VDict _) =>
           rosters_url league_id
           :: match http w (rosters_url league_id) with
              | Body _ => [users_url league_id]
              | Failed _ => []
              end
       | _ => []
       end
  /\ prompted (trace w (fetch_sleeper_data league_id)) = [].
Proof.
  unfold trace. rewrite run_fetch. cbv zeta.
  destruct (http w (league_details_url league_id)) as [msg|league_details];
    [split; reflexivity|].
  destruct league_details; cbn [get]; try (split; reflexivity).
  destruct (lookup "name" fields);
    (destruct (http w (rosters_url league_id)); [split; reflexivity|]);
    (destruct (http w (users_url league_id)); split; reflexivity).
Qed.

(** X2.  [None] stands for a failed request and for nothing else: the
    result is [None] exactly when one of the requests that were made
    failed, and then the lines printed are the banner and the message of
    that failure; in every other case the banner is the only line. *)
Theorem none_means_a_failed_request (w : world) (league_id : string) :
  let t := trace w (fetch_sleeper_data league_id) in
  let banner := "Fetching data for league ID: " +++ league_id in
  (result w (fetch_sleeper_data league_id) = Ok None <->
   exists url msg, In url (requested t) /\ http w url = Failed msg)
  /\ (forall url msg,
        In url (requested t) -> http w url = Failed msg ->
        printed t = [banner; failure_line msg])
  /\ (result w (fetch_sleeper_data league_id) <> Ok None -> printed t = [banner]).
Proof.
  unfold trace, result. rewrite run_fetch. cbv zeta.
  destruct (http w (league_details_url league_id)) as [msg|league_details] eqn:El.
  { cbn [fst snd requested printed flat_map app In]. repeat split.
    - intros _. exists (league_details_url league_id), msg. auto.
    - intros url msg' [<-|[]] H. congruence.
    - congruence. }
  destruct (get league_details "name" _) as [name|e].
  2: { cbn [fst snd requested printed flat_map app In]. repeat split; try discriminate.
       - intros (url & msg & [<-|[]] & H). congruence.
       - intros url msg [<-|[]] H. congruence. }
  destruct (http w (rosters_url league_id)) as [msg|rosters_body] eqn:Er.
  { cbn [fst snd requested printed flat_map app In]. repeat split.
    - intros _. exists (rosters_url league_id), msg. auto.
    - intros url msg' [<-|[<-|[]]] H; congruence.
    - congruence. }
  destruct (http w (users_url league_id)) as [msg|users_body] eqn:Eu.
  { cbn [fst snd requested printed flat_map app In]. repeat split.
    - intros _. exists (users_url league_id), msg. auto.
    - intros url msg' [<-|[<-|[<-|[]]]] H; congruence.
    - congruence. }
  cbn [fst snd requested printed flat_map app In]. repeat split.
  - destruct (build_standings _ _); discriminate.
  - intros (url & msg & [<-|[<-|[<-|[]]]] & H); congruence.
  - intros url msg [<-|[<-|[<-|[]]]] H; congruence.
Qed.

(** X3.  The league name of a report is the value of the league document's
    [name] key when the document has one, whatever the value, and the
    placeholder otherwise. *)
Theorem league_name_or_placeholder (w : world) (league_id : string) (rep : report) :
  result w (fetch_sleeper_data league_id) = Ok (Some rep) ->
  exists fields,
    http w (league_details_url league_id) = Body (VDict fields)
    /\ league_name rep = match lookup "name" fields with
                         | Some name => name
                         | None => VStr "Your Dynasty League"
                         end.
Proof.
  rewrite result_fetch.
  destruct (http w (league_details_url league_id)) as [?|league_details];
    [discriminate|].
  destruct league_details; cbn [get handled]; try discriminate.
  exists fields. split; [reflexivity|]. revert H.
  destruct (lookup "name" fields);
    (destruct (http w (rosters_url league_id)); [discriminate|]);
    (destruct (http w (users_url league_id)); [discriminate|]);
    (destruct (build_standings _ _) as [table|e]; [|destruct e; discriminate]);
    intros [= <-]; reflexivity.
Qed.

Lemma league_name_or_placeholder_witness :
  let w := serving LEAGUE_ID (Body (VDict [("season", VStr "2025")]))
             (Body (VList [roster_of_ann])) ann_and_bob (Text "") in
  exists rep,
    result w (fetch_sleeper_data LEAGUE_ID) = Ok (Some rep)
    /\ exists fields,
         http w (league_details_url LEAGUE_ID) = Body (VDict fields)
         /\ league_name rep = match lookup "name" fields with
                              | Some name => name
                              | None => VStr "Your Dynasty League"
                              end.
Proof.
  intros w. eexists. split.
  - vm_compute. reflexivity.
  - apply (league_name_or_placeholder w LEAGUE_ID). vm_compute. reflexivity.
Defined.

(* ================================================================= *)
(** * The index of the users *)

Lemma eqb_str (k : value) (s : string) : eqb k (VStr s) = true <-> k = VStr s.
Proof.
  destruct k as [|b|n|f|t|items|fields]; cbn; split; try discriminate;
    try (destruct b; discriminate); try (destruct items; discriminate).
  - intros H. apply String.eqb_eq in H. now subst.
  - intros [= ->]. apply String.eqb_refl.
Qed.

(** Looking a string up after a store. *)
Lemma dict_find_store (s : string) (key v : value) (d : dict) :
  dict_find (VStr s) (dict_store key v d)
  = if eqb key (VStr s) then Some v else dict_find (VStr s) d.
Proof.
  induction d as [|[k0 w0] rest IH]; cbn [dict_store dict_find].
  - reflexivity.
  - destruct (eqb k0 key) eqn:E0; cbn [dict_find].
    + destruct (eqb k0 (VStr s)) eqn:E1.
      * apply eqb_str in E1. subst k0.
        destruct key; cbn in E0; try discriminate.
        apply String.eqb_eq in E0. subst. cbn. now rewrite String.eqb_refl.
      * destruct (eqb key (VStr s)) eqn:E2; [|reflexivity].
        apply eqb_str in E2. subst key. apply eqb_str in E0. subst k0.
        cbn in E1. now rewrite String.eqb_refl in E1.
    + destruct (eqb k0 (VStr s)) eqn:E1; [|exact IH].
      destruct (eqb key (VStr s)) eqn:E2; [|reflexivity].
      apply eqb_str in E1, E2. subst. cbn in E0.
      now rewrite String.eqb_refl in E0.
Qed.

(** The index holds, for a string, the display name of the last user with
    that [user_id]. *)
Lemma build_user_map_find (s : string) (v : value) (users : list value) :
  forall acc user_map,
    build_user_map users acc = Ok user_map ->
    dict_find (VStr s) user_map = Some v ->
    (exists before u after,
       users = before ++ u :: after
       /\ has_id s u
       /\ getitem u "display_name" = Ok v
       /\ Forall (fun u' => ~ has_id s u') after)
    \/ (dict_find (VStr s) acc = Some v
        /\ Forall (fun u' => ~ has_id s u') users).
Proof.
  induction users as [|user rest IH]; cbn [build_user_map]; intros acc user_map H Hfind.
  - injection H as <-. right. split; [assumption | constructor].
  - apply bind_ok in H as (user_id & Hid & H).
    apply bind_ok in H as (display_name & Hname & H).
    apply bind_ok in H as (acc' & Hstore & H).
    unfold setitem in Hstore. destruct (hashable user_id); [|discriminate].
    injection Hstore as <-.
    destruct (IH _ _ H Hfind) as [(before & u & after & -> & Hu & Hv & Hafter)
                                 |[Hacc Hrest]].
    + left. exists (user :: before), u, after. auto.
    + rewrite dict_find_store in Hacc.
      destruct (eqb user_id (VStr s)) eqn:E.
      * apply eqb_str in E. subst user_id. injection Hacc as <-.
        left. exists [], user, rest. auto.
      * right. split; [assumption|]. constructor; [|assumption].
        unfold has_id. rewrite Hid. intros [= ->].
        cbn in E. now rewrite String.eqb_refl in E.
Qed.

(** X4.  The owner name of an entry is a display name from the users
    document: when the roster's [owner_id] is a string, it is the display
    name of the last user of the document whose [user_id] is that string. *)
Theorem owner_is_the_last_user (w : world) (league_id : string) (rep : report)
    (e : entry) :
  result w (fetch_sleeper_data league_id) = Ok (Some rep) ->
  In e (standings rep) ->
  exists user_map roster users_body users,
    made_from w league_id user_map roster e
    /\ http w (users_url league_id) = Body users_body
    /\ iter users_body = Ok users
    /\ forall s,
         owner_id_of roster = Some (VStr s) ->
         exists before u after,
           users = before ++ u :: after
           /\ has_id s u
           /\ getitem u "display_name" = Ok (owner_name e)
           /\ Forall (fun u' => ~ has_id s u') after.
Proof.
  intros H Hin.
  destruct (fetch_entry_origin w league_id rep e H Hin)
    as (user_map & rosters & roster & Hf & Hr & He).
  pose proof Hf as (rosters_body & users_body & Hrb & Hub & Hum & Hit).
  unfold user_map_of in Hum. apply bind_ok in Hum as (users & Hus & Hum).
  exists user_map, roster, users_body, users.
  split; [exists rosters; auto|]. split; [assumption|]. split; [assumption|].
  intros s Hs.
  apply roster_entry_inv in He as (owner_id & Ho & _ & _ & Hfind & _).
  rewrite Hs in Ho. injection Ho as <-.
  destruct (build_user_map_find s _ users [] user_map Hum Hfind)
    as [Hfound|[Hnil _]]; [exact Hfound | discriminate].
Qed.

Lemma owner_is_the_last_user_witness :
  let w := serving LEAGUE_ID dynasty (Body (VList [roster_named "u1" (VStr "Aces")]))
             (Body (VList [user "u1" "Ann"; user "u2" "Bob"; user "u1" "Anna"]))
             (Text "") in
  let e := plain_entry (VStr "Anna") (VStr "Aces") in
  result w (fetch_sleeper_data LEAGUE_ID)
  = Ok (Some {| league_name := VStr "Dynasty"; standings := [e] |})
  /\ exists user_map roster users_body users,
       made_from w LEAGUE_ID user_map roster e
       /\ http w (users_url LEAGUE_ID) = Body users_body
       /\ iter users_body = Ok users
       /\ forall s,
            owner_id_of roster = Some (VStr s) ->
            exists before u after,
              users = before ++ u :: after
              /\ has_id s u
              /\ getitem u "display_name" = Ok (owner_name e)
              /\ Forall (fun u' => ~ has_id s u') after.
Proof.
  intros w e.
  assert (H : result w (fetch_sleeper_data LEAGUE_ID)
              = Ok (Some {| league_name := VStr "Dynasty"; standings := [e] |}))
    by (vm_compute; reflexivity).
  split; [exact H|].
  apply (owner_is_the_last_user w LEAGUE_ID _ e H). now left.
Defined.

(* ================================================================= *)
(** * Sorting what is sorted *)

Lemma fleb_not_fltb (a b : float) : fleb b a = true -> fltb a b = false.
Proof.
  intros H. destruct (fltb a b) eqn:E; [|reflexivity].
  apply fleb_rank in H as (y & x & Hy & Hx & H).
  apply fltb_rank in E as (x' & y' & Hx' & Hy' & E).
  rewrite Hx in Hx'. injection Hx' as <-. rewrite Hy in Hy'. injection Hy' as <-.
  pose proof (lex3_spec y x) as F1. pose proof (lex3_spec x y) as F2.
  rewrite E in F2.
  destruct x as [[x1 x2] x3], y as [[y1 y2] y3]. cbn beta iota in F1, F2.
  destruct (lex3 (y1, y2, y3) (x1, x2, x3)); [lia | lia | congruence].
Qed.

Lemma precedes_not_less (x y : entry) :
  precedes x y -> tuple_ltb (sort_key x) (sort_key y) = Ok false.
Proof.
  intros (m & n & Hm & Hn & H). rewrite (tuple_ltb_ranked x y m n Hm Hn).
  f_equal. destruct H as [H|[-> H]].
  - destruct (Z.ltb_spec m n), (Z.eqb_spec m n); first [reflexivity | lia].
  - rewrite Z.ltb_irrefl, Z.eqb_refl. cbn [orb andb]. now apply fleb_not_fltb.
Qed.

(** A table in descending order is returned as it is. *)
Lemma sort_reverse_of_sorted (es : list entry) :
  StronglySorted precedes es -> sort_reverse sort_key es = Ok es.
Proof.
  induction 1 as [|x rest Hsorted IH Hfirst]; [reflexivity|].
  cbn [sort_reverse]. rewrite IH. cbn [bind].
  destruct rest as [|y rest']; [reflexivity|].
  cbn [insert_descending]. inversion Hfirst as [|? ? Hxy _]; subst.
  now rewrite (precedes_not_less x y Hxy).
Qed.

(** X5.  Sorting twice is sorting once: the table that the sort of line 71
    returns is returned as it is when sorted again; and a table that is in
    descending order already is returned unchanged. *)
Theorem sort_is_idempotent (es : list entry) :
  Forall ranked es ->
  exists out,
    sort_reverse sort_key es = Ok out
    /\ sort_reverse sort_key out = Ok out
    /\ (StronglySorted precedes es -> out = es).
Proof.
  intros Hall.
  destruct (sort_reverse_sorted es Hall) as (out & Hout & _ & Hsorted & _).
  exists out. split; [assumption|]. split; [now apply sort_reverse_of_sorted|].
  intros H. apply sort_reverse_of_sorted in H. congruence.
Qed.

Lemma sort_is_idempotent_witness :
  Forall ranked [team_C; team_A; team_B]
  /\ exists out,
       sort_reverse sort_key [team_C; team_A; team_B] = Ok out
       /\ sort_reverse sort_key out = Ok out
       /\ (StronglySorted precedes [team_C; team_A; team_B] ->
           out = [team_C; team_A; team_B]).
Proof.
  assert (H : Forall ranked [team_C; team_A; team_B])
    by (repeat constructor; eexists; reflexivity).
  split; [exact H|]. exact (sort_is_idempotent _ H).
Defined.

(* ================================================================= *)
(** * The main block *)

Lemma run_print_table (w : world) (teams : list entry) :
  run w (print_table teams)
  = (map (fun team => Printed (table_line team)) teams, Ok tt).
Proof.
  induction teams as [|team rest IH]; [reflexivity|].
  cbn [print_table print pbind run map]. now rewrite IH.
Qed.

(** The run of the main block, from the run of the fetch. *)
Lemma run_main (w : world) :
  run w main =
  let start := Printed "Starting Dynasty Site Updater..." in
  let t := trace w (fetch_sleeper_data LEAGUE_ID) in
  match result w (fetch_sleeper_data LEAGUE_ID) with
  | Raise e => (start :: t, Raise e)
  | Ok None => (start :: t ++ [Printed aborting], Ok tt)
  | Ok (Some rep) =>
      match standings rep with
      | [] => (start :: t ++ [Printed aborting], Ok tt)
      | _ :: _ =>
          let prompt := build_prompt (league_name rep) SEASON (standings rep) in
          (start :: t
           ++ Printed (newline +++ "--- Fetched League Standings ---")
           :: map (fun team => Printed (table_line team)) (standings rep)
           ++ [ Printed (newline +++ "--- Sending to GenAI ---");
                Prompted prompt;
                Printed (newline +++ "--- GenAI Generated Site Update Summary ---");
                Printed (summary_of (genai w prompt)) ],
           Ok tt)
      end
  end.
Proof.
  unfold main, trace, result. cbn [print pbind run]. rewrite run_pbind.
  destruct (run w (fetch_sleeper_data LEAGUE_ID)) as [t [[rep|]|e]];
    cbn [fst snd]; try reflexivity.
  destruct (standings rep) as [|team rest] eqn:Es; [reflexivity|].
  cbn [print pbind run]. rewrite run_pbind, run_print_table, run_pbind.
  rewrite run_generate by (rewrite Es; discriminate). rewrite Es.
  cbn [print pbind run app]. reflexivity.
Qed.

(** X6.  When the fetch returns [None], or a report with no standings, the
    main block prints the abort message after what the fetch printed and
    ends normally, without calling the text-generation service. *)
Theorem main_aborts_without_standings (w : world) :
  result w (fetch_sleeper_data LEAGUE_ID) = Ok None
  \/ (exists rep,
        result w (fetch_sleeper_data LEAGUE_ID) = Ok (Some rep)
        /\ standings rep = []) ->
  run w main
  = (Printed "Starting Dynasty Site Updater..."
     :: trace w (fetch_sleeper_data LEAGUE_ID)
     ++ [Printed "Failed to fetch Sleeper data or no standings found. Aborting GenAI summary generation."],
     Ok tt)
  /\ prompted (trace w main) = [].
Proof.
  intros H.
  assert (Hfetch : prompted (trace w (fetch_sleeper_data LEAGUE_ID)) = []).
  { unfold trace. rewrite run_fetch. cbv zeta.
    destruct (http w (league_details_url LEAGUE_ID)); [reflexivity|].
    destruct (get _ _ _); [|reflexivity].
    destruct (http w (rosters_url LEAGUE_ID)); [reflexivity|].
    destruct (http w (users_url LEAGUE_ID)); reflexivity. }
  assert (Hrun : run w main
                 = (Printed "Starting Dynasty Site Updater..."
                    :: trace w (fetch_sleeper_data LEAGUE_ID) ++ [Printed aborting],
                    Ok tt)).
  { rewrite run_main. cbv zeta.
    destruct H as [->|(rep & -> & ->)]; reflexivity. }
  split; [exact Hrun|].
  unfold trace at 1. rewrite Hrun. cbn [fst prompted flat_map app].
  unfold prompted in *. rewrite flat_map_app, Hfetch. reflexivity.
Qed.

Lemma main_aborts_without_standings_witness :
  let w := serving LEAGUE_ID dynasty (Failed "Read timed out") ann_and_bob
             (Text "unused") in
  run w main
  = (Printed "Starting Dynasty Site Updater..."
     :: trace w (fetch_sleeper_data LEAGUE_ID)
     ++ [Printed "Failed to fetch Sleeper data or no standings found. Aborting GenAI summary generation."],
     Ok tt)
  /\ prompted (trace w main) = [].
Proof.
  intros w. apply main_aborts_without_standings. left. vm_compute. reflexivity.
Defined.

Lemma fetch_raises (w : world) (league_id : string) (e : exn) :
  result w (fetch_sleeper_data league_id) = Raise e -> interpreter_fault e.
Proof.
  unfold result. rewrite run_fetch. cbv zeta.
  destruct (http w (league_details_url league_id)) as [?|league_details];
    [discriminate|].
  destruct (get league_details "name" _) as [name|e'];
    [|intros [= <-]; left; reflexivity].
  destruct (http w (rosters_url league_id)); [discriminate|].
  destruct (http w (users_url league_id)); [discriminate|].
  cbn [snd].
  destruct (build_standings _ _) as [table|e'] eqn:Eb; [discriminate|].
  intros [= <-]. now apply build_standings_raises in Eb.
Qed.

(** What a fetch that returns a report has done: the three requests. *)
Lemma fetch_trace_of_report (w : world) (league_id : string) (rep : report) :
  result w (fetch_sleeper_data league_id) = Ok (Some rep) ->
  trace w (fetch_sleeper_data league_id)
  = [ Printed ("Fetching data for league ID: " +++ league_id);
      Requested (league_details_url league_id);
      Requested (rosters_url league_id);
      Requested (users_url league_id) ].
Proof.
  unfold result, trace. rewrite run_fetch. cbv zeta.
  destruct (http w (league_details_url league_id)); [discriminate|].
  destruct (get _ _ _); [|discriminate].
  destruct (http w (rosters_url league_id)); [discriminate|].
  destruct (http w (users_url league_id)); [discriminate|].
  reflexivity.
Qed.

Lemma team_line_table_line (team : entry) :
  team_line team = "- " +++ table_line team +++ newline.
Proof.
  unfold team_line, table_line. now rewrite !append_assoc.
Qed.

Lemma printed_lines {A} (line : A -> string) (items : list A) :
  printed (map (fun item => Printed (line item)) items) = map line items
  /\ prompted (map (fun item => Printed (line item)) items) = [].
Proof.
  induction items as [|item rest [IH1 IH2]]; [split; reflexivity|].
  split; [cbn; f_equal; exact IH1 | exact IH2].
Qed.

(** X7.  When the fetch returns a report with standings, the main block
    prints the table in the order of the standings, one line per team, sends
    one prompt, the one made of the league name, the season and these
    standings, and prints what the service answered, or the error text when
    the service failed.  Each team's line in the prompt is the line printed
    for it, after a dash and before a line break. *)
Theorem main_prints_and_prompts (w : world) (rep : report) :
  result w (fetch_sleeper_data LEAGUE_ID) = Ok (Some rep) ->
  standings rep <> [] ->
  let prompt := build_prompt (league_name rep) SEASON (standings rep) in
  result w main = Ok tt
  /\ prompted (trace w main) = [prompt]
  /\ printed (trace w main)
     = [ "Starting Dynasty Site Updater...";
         "Fetching data for league ID: " +++ LEAGUE_ID;
         newline +++ "--- Fetched League Standings ---" ]
       ++ map table_line (standings rep)
       ++ [ newline +++ "--- Sending to GenAI ---";
            newline +++ "--- GenAI Generated Site Update Summary ---";
            match genai w prompt with
            | Text summary => summary
            | Fault msg => "Error generating content with GenAI: " +++ msg
            end ]
  /\ map team_line (standings rep)
     = map (fun team => "- " +++ table_line team +++ newline) (standings rep).
Proof.
  intros Hfetch Hsome prompt.
  assert (Hrun : run w main
    = (Printed "Starting Dynasty Site Updater..."
       :: trace w (fetch_sleeper_data LEAGUE_ID)
       ++ Printed (newline +++ "--- Fetched League Standings ---")
       :: map (fun team => Printed (table_line team)) (standings rep)
       ++ [ Printed (newline +++ "--- Sending to GenAI ---");
            Prompted prompt;
            Printed (newline +++ "--- GenAI Generated Site Update Summary ---");
            Printed (summary_of (genai w prompt)) ],
       Ok tt)).
  { rewrite run_main. cbv zeta. rewrite Hfetch.
    destruct (standings rep); [contradiction|reflexivity]. }
  rewrite (fetch_trace_of_report w LEAGUE_ID rep Hfetch) in Hrun.
  unfold result, trace. rewrite Hrun. cbn [fst snd]. clearbody prompt.
  repeat split.
  - unfold prompted. cbn [flat_map app]. rewrite flat_map_app.
    fold (prompted (map (fun team => Printed (table_line team)) (standings rep))).
    now rewrite (proj2 (printed_lines table_line (standings rep))).
  - unfold printed. cbn [flat_map app]. rewrite flat_map_app.
    fold (printed (map (fun team => Printed (table_line team)) (standings rep))).
    now rewrite (proj1 (printed_lines table_line (standings rep))).
  - apply map_ext. intros team. apply team_line_table_line.
Qed.

Lemma main_prints_and_prompts_witness :
  let w := serving LEAGUE_ID dynasty
             (Body (VList [roster_of_ann; roster_of_stranger])) ann_and_bob
             (Fault "429 Resource exhausted") in
  exists rep,
    result w (fetch_sleeper_data LEAGUE_ID) = Ok (Some rep)
    /\ standings rep <> []
    /\ result w main = Ok tt
    /\ prompted (trace w main)
       = [build_prompt (league_name rep) SEASON (standings rep)]
    /\ printed (trace w main)
       = [ "Starting Dynasty Site Updater...";
           "Fetching data for league ID: 1194798912048705536";
           newline +++ "--- Fetched League Standings ---";
           "Ann (Ann): 5-9 (0 ties), 1617.78 Fpts";
           newline +++ "--- Sending to GenAI ---";
           newline +++ "--- GenAI Generated Site Update Summary ---";
           "Error generating content with GenAI: 429 Resource exhausted" ].
Proof.
  intros w.
  let r := eval vm_compute in (result w (fetch_sleeper_data LEAGUE_ID)) in
  match r with
  | Ok (Some ?rep) =>
      exists rep;
      assert (Hfetch : result w (fetch_sleeper_data LEAGUE_ID) = Ok (Some rep))
        by (vm_compute; reflexivity);
      assert (Hsome : standings rep <> []) by discriminate;
      destruct (main_prints_and_prompts w rep Hfetch Hsome) as (Hr & Hp & Hl & _)
  end.
  split; [exact Hfetch|]. split; [exact Hsome|]. split; [exact Hr|].
  split; [exact Hp|]. rewrite Hl. vm_compute. reflexivity.
Defined.



Lemma collect_nobody (rosters : list value) (table : list entry) :
  collect [] rosters [] = Ok table -> table = [].
Proof.
  intros H. apply collect_rows in H as (rows & Hrows & ->). cbn [app].
  induction Hrows as [|roster row rosters rows Hrow _ IH]; [reflexivity|].
  apply roster_entry_known in Hrow. destruct row as [e|]; [|exact IH].
  unfold known_owner in Hrow. destruct (owner_id_of roster); [|discriminate].
  cbn [dict_find] in Hrow. now rewrite andb_false_r in Hrow.
Qed.

(** X10.  A league without rosters, or without users, gives a report with
    an empty table, not [None]: the three requests are made and nothing is
    printed about a failure.  The main block then prints the message of the
    failed fetch and calls no service. *)
Theorem empty_league_is_a_report (w : world) (fields : list (string * value))
    (rosters users : list value) :
  http w (league_details_url LEAGUE_ID) = Body (VDict fields) ->
  http w (rosters_url LEAGUE_ID) = Body (VList rosters) ->
  http w (users_url LEAGUE_ID) = Body (VList users) ->
  rosters = [] /\ forallb well_formed_user users = true
  \/ users = [] /\ forallb well_formed_roster rosters = true ->
  result w (fetch_sleeper_data LEAGUE_ID)
  = Ok (Some {| league_name :=
                  match lookup "name" fields with
                  | Some name => name
                  | None => VStr "Your Dynasty League"
                  end;
                standings := [] |})
  /\ run w main
     = ([ Printed "Starting Dynasty Site Updater...";
          Printed ("Fetching data for league ID: " +++ LEAGUE_ID);
          Requested (league_details_url LEAGUE_ID);
          Requested (rosters_url LEAGUE_ID);
          Requested (users_url LEAGUE_ID);
          Printed "Failed to fetch Sleeper data or no standings found. Aborting GenAI summary generation." ],
        Ok tt).
Proof.
  intros Hl Hr Hu Hempty.
  assert (Hb : build_standings (VList rosters) (VList users) = Ok []).
  { destruct Hempty as [[-> Husers] | [-> Hrosters]].
    - unfold build_standings, user_map_of. cbn [iter bind].
      destruct (build_user_map_returns users Husers []) as (user_map & ->).
      reflexivity.
    - destruct (build_standings_returns rosters [] eq_refl Hrosters)
        as (table & Htable).
      rewrite Htable. revert Htable. unfold build_standings, user_map_of.
      cbn [iter build_user_map bind].
      destruct (collect [] rosters []) as [found|e] eqn:Ec; [|discriminate].
      apply collect_nobody in Ec. subst found. cbn [bind sort_reverse].
      now intros [= <-]. }
  assert (Hfetch : result w (fetch_sleeper_data LEAGUE_ID)
                   = Ok (Some {| league_name :=
                                   match lookup "name" fields with
                                   | Some name => name
                                   | None => VStr "Your Dynasty League"
                                   end;
                                 standings := [] |})).
  { rewrite result_fetch, Hl, get_dict, Hr, Hu, Hb. reflexivity. }
  split; [exact Hfetch|].
  rewrite run_main. cbv zeta.
  rewrite (fetch_trace_of_report w LEAGUE_ID _ Hfetch), Hfetch. reflexivity.
Qed.

Lemma empty_league_is_a_report_witness :
  (let w := serving LEAGUE_ID dynasty (Body (VList [])) ann_and_bob (Text "unused") in
   result w (fetch_sleeper_data LEAGUE_ID)
   = Ok (Some {| league_name := VStr "Dynasty"; standings := [] |}))
  /\ (let w := serving LEAGUE_ID dynasty
                 (Body (VList [roster_of_ann; roster_unowned])) (Body (VList []))
                 (Text "unused") in
      result w (fetch_sleeper_data LEAGUE_ID)
      = Ok (Some {| league_name := VStr "Dynasty"; standings := [] |})).
Proof.
  split; cbv zeta.
  - refine (proj1 (empty_league_is_a_report _ [("name", VStr "Dynasty")] []
                     [user "u1" "Ann"; user "u2" "Bob"] _ _ _ _));
      [vm_compute; reflexivity .. |].
    left. split; vm_compute; reflexivity.
  - refine (proj1 (empty_league_is_a_report _ [("name", VStr "Dynasty")]
                     [roster_of_ann; roster_unowned] [] _ _ _ _));
      [vm_compute; reflexivity .. |].
    right. split; vm_compute; reflexivity.
Defined.

(* ================================================================= *)
(** * What the loop lets through *)

(** Only an integer overflows [float()]: text too large reads as [inf]. *)
Lemma to_float_overflows (v : value) :
  to_float v = Raise OverflowError
  <-> exists n, v = VInt n /\ float_of_int n = Raise OverflowError.
Proof.
  split; [|now intros (n & -> & H)].
  destruct v as [|b|n|f|s|items|fields]; cbn [to_float]; try discriminate.
  - intros H. now exists n.
  - unfold float_of_str.
    destruct (negb _); [discriminate|].
    destruct (read_sign _) as [negative body].
    destruct (_ || _); [discriminate|].
    destruct (is_word _ _); [discriminate|].
    destruct (read_numeral _ _); discriminate.
Qed.

(** X11.  The score computation of lines 56-59 raises in one case only,
    which its handler does not name: an [OverflowError], when [fpts] is an
    integer beyond the range of a float, or when [fpts] converts and
    [fpts_decimal] is such an integer.  Text never overflows; and a [fpts]
    that is rejected gives [0.0] before [fpts_decimal] is looked at. *)
Theorem score_raises_on_overflow_only (fpts_raw fpts_decimal_raw : value) :
  (forall e,
     fpts_of fpts_raw fpts_decimal_raw = Raise e <->
     e = OverflowError
     /\ exists n,
          float_of_int n = Raise OverflowError
          /\ (fpts_raw = VInt n
              \/ (exists whole, to_float fpts_raw = Ok whole)
                 /\ fpts_decimal_raw = VInt n))
  /\ (rejected fpts_raw -> fpts_of fpts_raw (VInt (2 ^ 1024)) = Ok fzero)
  /\ fpts_of (VInt (2 ^ 1024)) fpts_decimal_raw = Raise OverflowError
  /\ fpts_of (VInt 0) (VStr "1e999") = Ok (S754_infinity false).
Proof.
  split; [|split; [|split]].
  - intros e. unfold fpts_of, try_except_pure. split.
    + destruct (to_float fpts_raw) as [x|ea] eqn:Ea.
      * destruct (to_float fpts_decimal_raw) as [y|eb] eqn:Eb; [discriminate|].
        destruct (to_float_raises _ eb Eb) as [-> | [-> | ->]]; cbn;
          try discriminate.
        intros [= <-]. split; [reflexivity|].
        apply to_float_overflows in Eb as (n & -> & Hn).
        exists n. split; [exact Hn|]. right. split; [now exists x | reflexivity].
      * destruct (to_float_raises _ ea Ea) as [-> | [-> | ->]]; cbn;
          try discriminate.
        intros [= <-]. split; [reflexivity|].
        apply to_float_overflows in Ea as (n & -> & Hn).
        exists n. split; [exact Hn|]. now left.
    + intros (-> & n & Hn & [-> | [(whole & Hw) ->]]).
      * cbn [to_float]. rewrite Hn. reflexivity.
      * rewrite Hw. cbn [to_float bind]. rewrite Hn. reflexivity.
  - unfold fpts_of, try_except_pure. intros [-> | ->]; reflexivity.
  - vm_compute. reflexivity.
  - vm_compute. reflexivity.
Qed.

(** The loop over the rosters that have a known owner only. *)
Lemma collect_filter (user_map : dict) (rosters : list value) :
  forall acc table,
    collect user_map rosters acc = Ok table ->
    collect user_map (filter (known_owner user_map) rosters) acc = Ok table.
Proof.
  induction rosters as [|roster rest IH]; intros acc table; [trivial|].
  cbn [collect filter].
  destruct (roster_entry user_map roster) as [row|e] eqn:Er; [|discriminate].
  cbn [bind]. intros H. apply IH in H.
  apply roster_entry_known in Er as Hk. destruct row as [e|]; rewrite Hk.
  - cbn [collect]. rewrite Er. exact H.
  - exact H.
Qed.

(** X12.  The rosters that the loop skips leave no mark: without the
    rosters that have no owner among the users, the standings are the
    same. *)
Theorem skipped_rosters_leave_no_mark (users : value) (rosters : list value)
    (user_map : dict) (table : list entry) :
  user_map_of users = Ok user_map ->
  build_standings (VList rosters) users = Ok table ->
  build_standings (VList (filter (known_owner user_map) rosters)) users
  = Ok table.
Proof.
  unfold build_standings. intros ->. cbn [iter bind].
  destruct (collect user_map rosters []) as [found|e] eqn:Ec; [|discriminate].
  apply collect_filter in Ec. rewrite Ec. trivial.
Qed.

Lemma skipped_rosters_leave_no_mark_witness :
  let users := VList [user "u1" "Ann"; user "u2" "Bob"] in
  let rosters := [ roster_unowned; roster_of_ann; roster_of_stranger;
                   roster "u2" (VInt 7) (VInt 1500) ] in
  exists user_map table,
    user_map_of users = Ok user_map
    /\ filter (known_owner user_map) rosters
       = [roster_of_ann; roster "u2" (VInt 7) (VInt 1500)]
    /\ build_standings (VList rosters) users = Ok table
    /\ build_standings
         (VList [roster_of_ann; roster "u2" (VInt 7) (VInt 1500)]) users
       = Ok table.
Proof.
  intros users rosters.
  let m := eval vm_compute in (user_map_of users) in
  let t := eval vm_compute in (build_standings (VList rosters) users) in
  match m with
  | Ok ?user_map =>
      match t with
      | Ok ?table =>
          exists user_map, table;
          assert (Hm : user_map_of users = Ok user_map) by (vm_compute; reflexivity);
          assert (Ht : build_standings (VList rosters) users = Ok table)
            by (vm_compute; reflexivity);
          pose proof (skipped_rosters_leave_no_mark users rosters user_map table Hm Ht)
            as Hf
      end
  end.
  split; [exact Hm|]. split; [vm_compute; reflexivity|]. split; [exact Ht|].
  exact Hf.
Defined.
